(** * ip_find_me_bot: a shallow embedding of [bot.py]

    The bot is a thin layer over three collaborators: the chat transport
    (aiogram), the geo-IP provider reached through [requests], and the map
    renderer (folium).  The embedding keeps the program's own control flow
    (try/except, try/finally, the ordered handler filters) and takes the
    collaborators' answers from an environment record, so that every
    statement below quantifies over whatever the outside world replies. *)

From Stdlib Require Import List ZArith NArith Bool String Ascii Lia.
From Stdlib Require Import Floats DecimalString.
Import ListNotations.

Local Open Scope Z_scope.
#[local] Set Warnings "-register-all".

(** ** Python strings

    A Python [str] is a sequence of Unicode code points. *)

Definition pystr := list N.

Definition str_eqb (a b : pystr) : bool :=
  if list_eq_dec N.eq_dec a b then true else false.

(** String literals of the source are written as UTF-8 text and decoded
    to code points. *)
Fixpoint utf8_decode (bs : list N) : pystr :=
  match bs with
  | [] => []
  | b0 :: r0 =>
    if (b0 <? 0x80)%N then b0 :: utf8_decode r0
    else if (b0 <? 0xE0)%N then
      match r0 with
      | b1 :: r1 => ((b0 - 0xC0) * 64 + (b1 - 0x80))%N :: utf8_decode r1
      | _ => []
      end
    else if (b0 <? 0xF0)%N then
      match r0 with
      | b1 :: b2 :: r2 =>
        ((b0 - 0xE0) * 4096 + (b1 - 0x80) * 64 + (b2 - 0x80))%N
          :: utf8_decode r2
      | _ => []
      end
    else
      match r0 with
      | b1 :: b2 :: b3 :: r3 =>
        ((b0 - 0xF0) * 262144 + (b1 - 0x80) * 4096
         + (b2 - 0x80) * 64 + (b3 - 0x80))%N :: utf8_decode r3
      | _ => []
      end
  end.

Definition u (s : string) : pystr :=
  utf8_decode (map N_of_ascii (list_ascii_of_string s)).

Definition nl : pystr := [10%N].
Definition dot : N := 46%N.

(** ** Exceptions

    Only the class of an exception (to decide which [except] clause takes
    it) and its [str()] (interpolated into error messages) are observed. *)

Inductive exn_class :=
| ValueError | AttributeError | KeyError | TypeError | OSError
| ConnectionError | Timeout | HTTPError | JSONDecodeError
| TelegramError.

Record exn := mk_exn { exn_cls : exn_class; exn_str : pystr }.

(** [requests.exceptions.RequestException] and its subclasses.  Since
    requests 2.27 the error raised by [Response.json()] derives from it
    (through [InvalidJSONError]) as well as from [ValueError]. *)
Definition is_RequestException (c : exn_class) : bool :=
  match c with
  | ConnectionError | Timeout | HTTPError | JSONDecodeError => true
  | _ => false
  end.

Definition is_ValueError (c : exn_class) : bool :=
  match c with
  | ValueError | JSONDecodeError => true
  | _ => false
  end.

Inductive pyresult (A : Type) :=
| Ret (a : A)
| Raise (e : exn).
Arguments Ret {A} a.
Arguments Raise {A} e.

(** ** The parts of the Python runtime that [bot.py] calls *)

Module Py.

(** [str.isspace] for one code point ([Py_UNICODE_ISSPACE]). *)
Definition isspace (c : N) : bool :=
  ((9 <=? c) && (c <=? 13) || (0x1C <=? c) && (c <=? 0x20)
   || (c =? 0x85) || (c =? 0xA0) || (c =? 0x1680)
   || (0x2000 <=? c) && (c <=? 0x200A)
   || (c =? 0x2028) || (c =? 0x2029) || (c =? 0x202F)
   || (c =? 0x205F) || (c =? 0x3000))%N.

(** Code points of the digit zero of every decimal digit block (general
    category Nd, Unicode 14); each is followed by its digits one to nine. *)
Definition decimal_zeros : list N :=
  [0x30; 0x660; 0x6F0; 0x7C0; 0x966; 0x9E6; 0xA66; 0xAE6; 0xB66; 0xBE6;
   0xC66; 0xCE6; 0xD66; 0xDE6; 0xE50; 0xED0; 0xF20; 0x1040; 0x1090;
   0x17E0; 0x1810; 0x1946; 0x19D0; 0x1A80; 0x1A90; 0x1B50; 0x1BB0;
   0x1C40; 0x1C50; 0xA620; 0xA8D0; 0xA900; 0xA9D0; 0xA9F0; 0xAA50;
   0xABF0; 0xFF10; 0x104A0; 0x10D30; 0x11066; 0x110F0; 0x11136;
   0x111D0; 0x112F0; 0x11450; 0x114D0; 0x11650; 0x116C0; 0x11730;
   0x118E0; 0x11950; 0x11C50; 0x11D50; 0x11DA0; 0x16A60; 0x16AC0;
   0x16B50; 0x1D7CE; 0x1D7D8; 0x1D7E2; 0x1D7EC; 0x1D7F6; 0x1E140;
   0x1E2F0; 0x1E950; 0x1FBF0]%N.

(** [Py_UNICODE_TODECIMAL]. *)
Definition todecimal (c : N) : option Z :=
  match find (fun z => (z <=? c) && (c <? z + 10))%N decimal_zeros with
  | Some z => Some (Z.of_N (c - z))
  | None => None
  end.

(** What [int(s)] sees of one character.  A non-ASCII string is first
    rewritten ([_PyUnicode_TransformDecimalAndSpaceToASCII]): Unicode
    spaces become a blank and decimal digits their ASCII digit; code
    points below 127 are kept, so among them only the six C-locale
    blanks count as space. *)
Inductive tok := TSpace | TDigit (d : Z) | TPlus | TMinus | TUnder | TOther.

Definition classify (c : N) : tok :=
  if (c <? 127)%N then
    if ((9 <=? c) && (c <=? 13) || (c =? 32))%N then TSpace
    else if (c =? 43)%N then TPlus
    else if (c =? 45)%N then TMinus
    else if (c =? 95)%N then TUnder
    else if ((48 <=? c) && (c <=? 57))%N then TDigit (Z.of_N (c - 48))
    else TOther
  else if isspace c then TSpace
  else match todecimal c with
       | Some d => TDigit d
       | None => TOther
       end.

Fixpoint skip_spaces (l : list tok) : list tok :=
  match l with
  | TSpace :: r => skip_spaces r
  | _ => l
  end.

(** The digit loop of [long_from_non_binary_base]: digits with single
    underscores between them; yields the value, the number of digits and
    the unread rest. *)
Fixpoint scan_digits (prev_under : bool) (val : Z) (ndigits : nat)
         (l : list tok) : option (Z * nat * list tok) :=
  match l with
  | TDigit d :: r => scan_digits false (10 * val + d) (S ndigits) r
  | TUnder :: r => if prev_under then None
                   else scan_digits true val ndigits r
  | _ => if prev_under then None else Some (val, ndigits, l)
  end.

Definition invalid_literal : exn := mk_exn ValueError [].

Section Int.

(** [sys.get_int_max_str_digits()]: 4300 by default since CPython 3.11,
    0 when the limit is off or does not exist. *)
Variable max_str_digits : nat.

(** [int(s)] for a [str] argument, base 10.  The text of the
    [ValueError] is never read by the program and is left empty. *)
Definition int (s : pystr) : pyresult Z :=
  let l1 := skip_spaces (map classify s) in
  let '(sign, l2) := match l1 with
                     | TPlus :: r => (1, r)
                     | TMinus :: r => (-1, r)
                     | _ => (1, l1)
                     end in
  match l2 with
  | TUnder :: _ => Raise invalid_literal
  | _ =>
    match scan_digits false 0 0 l2 with
    | None => Raise invalid_literal
    | Some (v, n, rest) =>
      if Nat.eqb n 0 then Raise invalid_literal
      else if negb (Nat.eqb max_str_digits 0) && Nat.ltb max_str_digits n
      then Raise invalid_literal
      else match skip_spaces rest with
           | [] => Ret (sign * v)
           | _ => Raise invalid_literal
           end
    end
  end.

End Int.

(** [s.split(sep)] with a one-character separator. *)
Fixpoint split (sep : N) (s : pystr) : list pystr :=
  match s with
  | [] => [[]]
  | c :: r =>
    if (c =? sep)%N then [] :: split sep r
    else match split sep r with
         | p :: ps => (c :: p) :: ps
         | [] => [[c]]
         end
  end.

(** [sep.join(parts)]. *)
Fixpoint join (sep : pystr) (parts : list pystr) : pystr :=
  match parts with
  | [] => []
  | [p] => p
  | p :: ps => p ++ sep ++ join sep ps
  end.

Fixpoint lstrip (s : pystr) : pystr :=
  match s with
  | c :: r => if isspace c then lstrip r else s
  | [] => []
  end.

(** [s.strip()]. *)
Definition strip (s : pystr) : pystr := rev (lstrip (rev (lstrip s))).

End Py.

(** ** [is_valid_ip] *)

Section Validator.

Variable max_str_digits : nat.

(** [all(0 <= int(part) <= 255 for part in parts)]: the generator is
    consumed left to right and stops at the first false element, so a
    later part that does not parse is never converted. *)
Fixpoint all_octets (parts : list pystr) : pyresult bool :=
  match parts with
  | [] => Ret true
  | part :: rest =>
    match Py.int max_str_digits part with
    | Raise e => Raise e
    | Ret n => if (0 <=? n) && (n <=? 255) then all_octets rest
               else Ret false
    end
  end.

Definition is_valid_ip (ip : pystr) : pyresult bool :=
  let parts := Py.split dot ip in
  if negb (Nat.eqb (List.length parts) 4) then Ret false
  else match all_octets parts with
       | Raise e => if is_ValueError (exn_cls e) then Ret false else Raise e
       | r => r
       end.

(** The validator as the specification words it: exactly four
    dot-separated segments, each parseable as a base-10 integer in
    [0, 255]. *)
Definition segment_ok (p : pystr) : Prop :=
  ~ In dot p /\ exists n, Py.int max_str_digits p = Ret n /\ 0 <= n <= 255.

Definition spec_valid_ip (s : pystr) : Prop :=
  exists a b c d,
    s = a ++ dot :: b ++ dot :: c ++ dot :: d
    /\ segment_ok a /\ segment_ok b /\ segment_ok c /\ segment_ok d.

End Validator.

(** ** Values

    What [Response.json()] can return, which is also every value the
    handlers pass around: [None], booleans, integers, floats, strings,
    lists and dicts (kept in insertion order). *)

Inductive value :=
| VNone
| VBool (b : bool)
| VInt (z : Z)
| VFloat (f : float)
| VStr (s : pystr)
| VList (l : list value)
| VDict (d : list (pystr * value)).

Definition dict := list (pystr * value).

Fixpoint dict_get (d : dict) (key : pystr) : option value :=
  match d with
  | [] => None
  | (k, v) :: rest => if str_eqb k key then Some v else dict_get rest key
  end.

(** Truth value of an object, as [if], [and] and [not] take it. *)
Definition truthy (v : value) : bool :=
  match v with
  | VNone => false
  | VBool b => b
  | VInt z => negb (z =? 0)
  | VFloat f => negb (PrimFloat.eqb f 0)
  | VStr s => match s with [] => false | _ => true end
  | VList l => match l with [] => false | _ => true end
  | VDict d => match d with [] => false | _ => true end
  end.

(** [v == s] for a string literal [s]. *)
Definition eq_str (v : value) (s : pystr) : bool :=
  match v with
  | VStr t => str_eqb t s
  | _ => false
  end.

Definition type_name (v : value) : pystr :=
  match v with
  | VNone => u "NoneType"
  | VBool _ => u "bool"
  | VInt _ => u "int"
  | VFloat _ => u "float"
  | VStr _ => u "str"
  | VList _ => u "list"
  | VDict _ => u "dict"
  end.

Definition no_attribute (v : value) (attr : pystr) : exn :=
  mk_exn AttributeError
         (u "'" ++ type_name v ++ u "' object has no attribute '"
            ++ attr ++ u "'").

(** [d.get(key, default)]; only a dict has the method. *)
Definition get (d : value) (key : pystr) (default : value) : pyresult value :=
  match d with
  | VDict o => Ret (match dict_get o key with
                    | Some v => v
                    | None => default
                    end)
  | _ => Raise (no_attribute d (u "get"))
  end.

(** [d[key]] for a string key. *)
Definition getitem (d : value) (key : pystr) : pyresult value :=
  match d with
  | VDict o => match dict_get o key with
               | Some v => Ret v
               | None => Raise (mk_exn KeyError (u "'" ++ key ++ u "'"))
               end
  | _ => Raise (mk_exn TypeError
                       (u "'" ++ type_name d ++ u "' object is not subscriptable"))
  end.

(** ** The outside world *)

Inductive reply_markup :=
| NoMarkup
| ReplyKeyboard (buttons : list pystr) (resize_keyboard : bool)
                (input_field_placeholder : pystr)
| ReplyKeyboardRemove.

(** Every call that leaves the process, in the order it is made. *)
Inductive event :=
| HttpGet (url : pystr) (timeout : Z)
| SendChatAction (chat_id : Z) (action : pystr)
| Answer (chat_id : Z) (text : pystr) (markup : reply_markup)
| AnswerDocument (chat_id : Z) (path : pystr) (caption : pystr).

Record Message := { chat : Z; text : option pystr }.

(** The collaborators' behaviour and the library functions whose tables
    are not part of the repository. *)
Record env := {
  (** [sys.get_int_max_str_digits()] *)
  max_str_digits : nat;
  (** [str.lower] *)
  lower : pystr -> pystr;
  (** [str()] of a float, a list or a dict *)
  repr : value -> pystr;
  (** aiogram's [Command("start")] filter *)
  command_start : Message -> bool;
  (** [requests.get(url, timeout=t).json()] *)
  requests_get_json : pystr -> Z -> pyresult value;
  (** [folium.Map(location=[lat, lon], zoom_start=z)] *)
  folium_Map : value -> value -> Z -> option exn;
  (** [folium.Marker([lat, lon], popup=p).add_to(area)] *)
  folium_Marker : value -> value -> value -> option exn;
  (** [area.save(path)] *)
  folium_save : pystr -> option exn;
  (** whether a call to the chat transport raises, given the calls made
      so far *)
  transport : list event -> event -> option exn
}.

Record state := { trace : list event; disk : list pystr }.

(** ** Handlers run in a state and exception monad *)

Definition M (A : Type) := state -> pyresult A * state.

Definition ret {A} (a : A) : M A := fun s => (Ret a, s).

Definition raise {A} (e : exn) : M A := fun s => (Raise e, s).

Definition bind {A B} (m : M A) (k : A -> M B) : M B :=
  fun s => match m s with
           | (Ret a, s') => k a s'
           | (Raise e, s') => (Raise e, s')
           end.

Definition lift {A} (r : pyresult A) : M A := fun s => (r, s).

Definition check (r : option exn) : M unit :=
  fun s => match r with
           | None => (Ret tt, s)
           | Some e => (Raise e, s)
           end.

(** [try: m  finally: f] *)
Definition try_finally {A} (m : M A) (f : M unit) : M A :=
  fun s => match m s with
           | (r, s') => match f s' with
                        | (Ret _, s'') => (r, s'')
                        | (Raise e, s'') => (Raise e, s'')
                        end
           end.

Declare Scope py_scope.
Delimit Scope py_scope with py.
Notation "x <- m ;; k" := (bind m (fun x => k))
  (at level 61, m at next level, right associativity) : py_scope.
Notation "m ;; k" := (bind m (fun _ => k))
  (at level 61, right associativity) : py_scope.
Local Open Scope py_scope.

Definition emit (ev : event) : M unit :=
  fun s => (Ret tt, {| trace := trace s ++ [ev]; disk := disk s |}).

Definition os_path_exists (path : pystr) : M bool :=
  fun s => (Ret (existsb (str_eqb path) (disk s)), s).

Definition os_remove (path : pystr) : M unit :=
  fun s => (Ret tt, {| trace := trace s;
                       disk := filter (fun p => negb (str_eqb path p)) (disk s) |}).

Definition write_file (path : pystr) : M unit :=
  fun s => (Ret tt, {| trace := trace s; disk := path :: disk s |}).

Definition any_exception (c : exn_class) : bool := true.

(** [try: m  except c1 as e: h1 e  except c2 as e: h2 e ...]: the first
    clause whose class matches takes the exception. *)
Fixpoint handle {A} (clauses : list ((exn_class -> bool) * (exn -> M A)))
         (e : exn) : M A :=
  match clauses with
  | [] => raise e
  | (c, h) :: rest => if c (exn_cls e) then h e else handle rest e
  end.

Definition try_except {A} (m : M A)
           (clauses : list ((exn_class -> bool) * (exn -> M A))) : M A :=
  fun s => match m s with
           | (Raise e, s') => handle clauses e s'
           | r => r
           end.

(** ** The bot *)

Section Bot.

Variable E : env.

(** [f"{v}"] *)
Definition format (v : value) : pystr :=
  match v with
  | VStr s => s
  | VNone => u "None"
  | VBool true => u "True"
  | VBool false => u "False"
  | VInt z => u (NilZero.string_of_int (Z.to_int z))
  | _ => repr E v
  end.

Definition requests_get (url : pystr) (timeout : Z) : M value :=
  emit (HttpGet url timeout) ;; lift (requests_get_json E url timeout).

Definition send (ev : event) : M unit :=
  fun s => match transport E (trace s) ev with
           | None => emit ev s
           | Some e => (Raise e, snd (emit ev s))
           end.

Definition send_chat_action (chat_id : Z) (action : pystr) : M unit :=
  send (SendChatAction chat_id action).

Definition answer (message : Message) (text : pystr)
           (markup : reply_markup) : M unit :=
  send (Answer (chat message) text markup).

Definition answer_document (message : Message) (path caption : pystr)
  : M unit :=
  send (AnswerDocument (chat message) path caption).

Definition geo_url (ip : value) : pystr :=
  u "http://ip-api.com/json/" ++ format ip.

Definition map_name (query : value) : pystr :=
  u "ip_map_" ++ format query ++ u ".html".

(** The body of the [try] block of [get_ip_info]. *)
Definition get_ip_info_try (ip : value) : M (option dict * value) :=
  response <- requests_get (geo_url ip) 10 ;;
  status <- lift (get response (u "status") VNone) ;;
  if eq_str status (u "fail") then
    message <- lift (get response (u "message") (VStr (u "Unknown error"))) ;;
    ret (None, message)
  else
    query <- lift (get response (u "query") VNone) ;;
    isp <- lift (get response (u "isp") VNone) ;;
    country <- lift (get response (u "country") VNone) ;;
    regionName <- lift (get response (u "regionName") VNone) ;;
    city <- lift (get response (u "city") VNone) ;;
    zip <- lift (get response (u "zip") VNone) ;;
    lat <- lift (get response (u "lat") VNone) ;;
    lon <- lift (get response (u "lon") VNone) ;;
    let data := [ (u "IP", query);
                  (u "Интернет провайдер", isp);
                  (u "Страна", country);
                  (u "Регион", regionName);
                  (u "Город", city);
                  (u "Индекс", zip);
                  (u "Широта", lat);
                  (u "Долгота", lon) ] in
    lat <- lift (get response (u "lat") VNone) ;;
    coordinates <- (if truthy lat
                    then lon <- lift (get response (u "lon") VNone) ;;
                         ret (truthy lon)
                    else ret false) ;;
    if (coordinates : bool) then
      lat <- lift (getitem response (u "lat")) ;;
      lon <- lift (getitem response (u "lon")) ;;
      check (folium_Map E lat lon 12) ;;
      lat <- lift (getitem response (u "lat")) ;;
      lon <- lift (getitem response (u "lon")) ;;
      popup <- lift (get response (u "city") (VStr (u "Unknown location"))) ;;
      check (folium_Marker E lat lon popup) ;;
      query <- lift (getitem response (u "query")) ;;
      let map_filename := map_name query in
      check (folium_save E map_filename) ;;
      write_file map_filename ;;
      ret (Some data, VStr map_filename)
    else
      ret (Some data, VNone).

Definition get_ip_info (ip : value) : M (option dict * value) :=
  try_except (get_ip_info_try ip)
    [ (is_RequestException,
       fun e => ret (None, VStr (u "Ошибка сети: " ++ exn_str e)));
      (any_exception,
       fun e => ret (None, VStr (u "Произошла ошибка: " ++ exn_str e))) ].

Definition start_text : pystr :=
  u "<b>Привет!</b> Я бот для получения информации об IP-адресах." ++ nl
  ++ u "Просто отправь мне любой IP-адрес или нажми кнопку ниже.".

Definition cmd_start (message : Message) : M unit :=
  answer message start_text
         (ReplyKeyboard [u "Мой IP"; u "Помощь"] true
                        (u "Выберите действие...")).

Definition help_text : pystr :=
  u "<b>📌 Как пользоваться ботом:</b>" ++ nl ++ nl
  ++ u "1. Отправьте мне <i>IPv4-адрес</i> (например, 8.8.8.8)" ++ nl
  ++ u "2. Или нажмите кнопку <b>'Мой IP'</b>" ++ nl ++ nl
  ++ u "Я покажу информацию о местоположении и пришлю карту." ++ nl
  ++ u "Карту можешь открыть с телефона или ПК в любом браузере".

Definition cmd_help (message : Message) : M unit :=
  answer message help_text ReplyKeyboardRemove.

Definition info_text (data : dict) : pystr :=
  u "<b>🔍 Информация об IP:</b>" ++ nl ++ nl
  ++ Py.join nl
       (map (fun kv => u "<b>" ++ fst kv ++ u ":</b> <code>"
                         ++ format (snd kv) ++ u "</code>") data).

Definition map_warning : pystr :=
  nl ++ nl ++ u "⚠ <i>Не удалось создать карту для этого IP</i>".

Definition map_caption : pystr := u "📍 Карта местоположения".

Definition process_ip_request (message : Message) (ip : value) : M unit :=
  send_chat_action (chat message) (u "typing") ;;
  result <- get_ip_info ip ;;
  let '(data, map_filename) := result in
  match data with
  | None => answer message (u "❌ " ++ format map_filename) NoMarkup
  | Some data =>
    let info_text := info_text data in
    if truthy map_filename then
      match map_filename with
      | VStr path =>
        try_finally
          (answer message info_text NoMarkup ;;
           answer_document message path map_caption)
          (present <- os_path_exists path ;;
           if (present : bool) then os_remove path else ret tt)
      | _ =>
        (* not a path; [get_ip_info] returns no such value with a record *)
        raise (mk_exn TypeError (u "expected str, bytes or os.PathLike object"))
      end
    else
      answer message (info_text ++ map_warning) NoMarkup
  end.

Definition ipify_url : pystr := u "https://api.ipify.org?format=json".

Definition manual_entry_text : pystr :=
  u "Не удалось определить ваш IP автоматически. "
  ++ u "Пожалуйста, введите IP-адрес вручную.".

Definition undetermined_text : pystr :=
  u "Не удалось определить ваш IP-адрес.".

Definition cmd_my_ip (message : Message) : M unit :=
  try_except
    (ip_response <- requests_get ipify_url 5 ;;
     user_ip <- lift (get ip_response (u "ip") VNone) ;;
     if truthy user_ip then process_ip_request message user_ip
     else answer message undetermined_text NoMarkup)
    [ (is_RequestException,
       fun _ => answer message manual_entry_text NoMarkup) ].

Definition process_ip (message : Message) : M unit :=
  match text message with
  | Some t => process_ip_request message (VStr (Py.strip t))
  | None => raise (no_attribute VNone (u "strip"))
  end.

(** The handlers' filters, in the order of registration.  A lambda
    filter passes when its result is true as an object. *)
Definition filter_help (message : Message) : bool :=
  match text message with
  | Some t => truthy (VStr t) && str_eqb (lower E t) (u "помощь")
  | None => false
  end.

Definition filter_my_ip (message : Message) : bool :=
  match text message with
  | Some t => truthy (VStr t) && str_eqb (lower E t) (u "мой ip")
  | None => false
  end.

Definition filter_ip (message : Message) : pyresult bool :=
  match text message with
  | Some t => if truthy (VStr t) then is_valid_ip (max_str_digits E) t
              else Ret false
  | None => Ret false
  end.

(** The dispatcher hands a message to the first handler whose filter
    passes, and to none when no filter does. *)
Definition dispatch (message : Message) : M unit :=
  if command_start E message then cmd_start message
  else if filter_help message then cmd_help message
  else if filter_my_ip message then cmd_my_ip message
  else passes <- lift (filter_ip message) ;;
       if (passes : bool) then process_ip message else ret tt.

End Bot.

(** ** Sample worlds, used to run the handlers on concrete inputs *)

(** Lower-casing restricted to the basic Latin and Russian letters. *)
Definition lower_basic (s : pystr) : pystr :=
  map (fun c => if ((0x41 <=? c) && (c <=? 0x5A))%N then (c + 32)%N
                else if ((0x410 <=? c) && (c <=? 0x42F))%N then (c + 32)%N
                else c) s.

Definition sample_env (ipify geo : pyresult value)
           (chat_transport : list event -> event -> option exn) : env :=
  {| max_str_digits := 4300;
     lower := lower_basic;
     repr := fun _ => u "...";
     command_start := fun m => match text m with
                               | Some t => str_eqb t (u "/start")
                               | None => false
                               end;
     requests_get_json := fun url _ => if str_eqb url ipify_url then ipify
                                       else geo;
     folium_Map := fun _ _ _ => None;
     folium_Marker := fun _ _ _ => None;
     folium_save := fun _ => None;
     transport := chat_transport |}.

Definition reliable : list event -> event -> option exn := fun _ _ => None.

Definition s0 : state := {| trace := []; disk := [] |}.

Definition msg (t : string) : Message := {| chat := 1; text := Some (u t) |}.

Definition geo_response (query : string) (lat lon : float) : value :=
  VDict [ (u "status", VStr (u "success"));
          (u "country", VStr (u "United States"));
          (u "city", VStr (u "Mountain View"));
          (u "lat", VFloat lat);
          (u "lon", VFloat lon);
          (u "isp", VStr (u "Google LLC"));
          (u "query", VStr (u query)) ].

Definition geo_without_coordinates : value :=
  VDict [ (u "status", VStr (u "success"));
          (u "country", VStr (u "United States"));
          (u "query", VStr (u "8.8.8.8")) ].

Definition geo_without_query : value :=
  VDict [ (u "status", VStr (u "success"));
          (u "city", VStr (u "Mountain View"));
          (u "lat", VFloat 37);
          (u "lon", VFloat (-122)) ].

Definition geo_failure : value :=
  VDict [ (u "status", VStr (u "fail"));
          (u "message", VStr (u "invalid query"));
          (u "query", VStr (u "8.8.8.8")) ].

Definition ipify_response : value := VDict [ (u "ip", VStr (u "8.8.8.8")) ].

Definition timed_out : exn := mk_exn Timeout (u "Read timed out.").

(** What [Response.json()] raised for a body that is not JSON before
    requests 2.27: the decoder's own error, a [ValueError]. *)
Definition not_json : exn :=
  mk_exn ValueError (u "Expecting value: line 1 column 1 (char 0)").

Definition telegram_down : exn := mk_exn TelegramError (u "Bad Gateway").

Definition attachment_fails : list event -> event -> option exn :=
  fun _ ev => match ev with
              | AnswerDocument _ _ _ => Some telegram_down
              | _ => None
              end.

(** [str(z)] of an integer. *)
Definition decimal (z : Z) : pystr := u (NilZero.string_of_int (Z.to_int z)).

(** [f"{a}.{b}.{c}.{d}"] for four integers. *)
Definition dotted_quad (a b c d : Z) : pystr :=
  decimal a ++ u "." ++ decimal b ++ u "." ++ decimal c ++ u "." ++ decimal d.

(** ** Vocabulary of the statements *)

(** The state after the calls [evs] have been made from [s]. *)
Definition logged (s : state) (evs : list event) : state :=
  {| trace := trace s ++ evs; disk := disk s |}.

(** No call to the chat transport raises. *)
Definition transport_reliable (E : env) : Prop :=
  forall history ev, transport E history ev = None.

(** The chat transport raises its own errors, none of them an instance
    of [requests.exceptions.RequestException]. *)
Definition transport_foreign (E : env) : Prop :=
  forall history ev e,
    transport E history ev = Some e -> is_RequestException (exn_cls e) = false.

(** [d.get(key)] *)
Definition field (d : dict) (key : string) : value :=
  match dict_get d (u key) with
  | Some v => v
  | None => VNone
  end.

(** * Properties *)

(** ** The validator *)

Section ValidatorFacts.

Variable n : nat.

Lemma str_eqb_eq (a b : pystr) : str_eqb a b = true <-> a = b.
Proof.
  unfold str_eqb. destruct (list_eq_dec N.eq_dec a b); split; congruence.
Qed.

Lemma str_eqb_refl (a : pystr) : str_eqb a a = true.
Proof. now apply str_eqb_eq. Qed.

Lemma split_not_nil (sep : N) (s : pystr) : Py.split sep s <> [].
Proof.
  destruct s as [|c r]; simpl; [discriminate|].
  destruct (c =? sep)%N; [discriminate|].
  destruct (Py.split sep r); discriminate.
Qed.

Lemma split_no_sep (sep : N) (a : pystr) :
  ~ In sep a -> Py.split sep a = [a].
Proof.
  induction a as [|c r IH]; simpl; intros H; [reflexivity|].
  destruct (N.eqb_spec c sep) as [->|_]; [exfalso; auto|].
  rewrite IH by tauto. reflexivity.
Qed.

Lemma split_app (sep : N) (a r : pystr) :
  ~ In sep a -> Py.split sep (a ++ sep :: r) = a :: Py.split sep r.
Proof.
  induction a as [|c a IH]; simpl; intros H.
  - now rewrite N.eqb_refl.
  - destruct (N.eqb_spec c sep) as [->|_]; [exfalso; auto|].
    rewrite IH by tauto. reflexivity.
Qed.

(** Splitting loses nothing: the parts hold no separator and joining
    them gives the string back. *)
Lemma split_join (sep : N) (s : pystr) :
  Forall (fun p => ~ In sep p) (Py.split sep s)
  /\ Py.join [sep] (Py.split sep s) = s.
Proof.
  induction s as [|c r [IHf IHj]]; simpl.
  - split; [repeat constructor; auto | reflexivity].
  - destruct (N.eqb_spec c sep) as [->|Hc].
    + split; [constructor; auto|].
      destruct (Py.split sep r) eqn:Hs; [now apply split_not_nil in Hs|].
      simpl. now rewrite <- IHj.
    + destruct (Py.split sep r) as [|p ps] eqn:Hs;
        [now apply split_not_nil in Hs|].
      pose proof (Forall_inv IHf) as Hp.
      pose proof (Forall_inv_tail IHf) as Hps. split.
      * constructor; [|assumption]. simpl. intros [->|Hin]; auto.
      * destruct ps; simpl in *; now rewrite <- IHj.
Qed.

Lemma int_raises (p : pystr) (e : exn) :
  Py.int n p = Raise e -> e = Py.invalid_literal.
Proof.
  unfold Py.int.
  repeat match goal with
         | |- context [match ?x with _ => _ end] => destruct x
         end; intros H; inversion H; reflexivity.
Qed.

Lemma all_octets_raises (parts : list pystr) (e : exn) :
  all_octets n parts = Raise e -> e = Py.invalid_literal.
Proof.
  induction parts as [|p ps IH]; simpl; [discriminate|].
  destruct (Py.int n p) as [k|e'] eqn:Hp.
  - destruct ((0 <=? k) && (k <=? 255)); [exact IH | discriminate].
  - intros H; inversion H; subst. now apply int_raises in Hp.
Qed.

Lemma in_range_iff (k : Z) :
  (0 <=? k) && (k <=? 255) = true <-> 0 <= k <= 255.
Proof. rewrite andb_true_iff, !Z.leb_le. tauto. Qed.

Lemma all_octets_true (parts : list pystr) :
  all_octets n parts = Ret true
  <-> Forall (fun p => exists k, Py.int n p = Ret k /\ 0 <= k <= 255) parts.
Proof.
  induction parts as [|p ps IH]; simpl.
  - split; [constructor | reflexivity].
  - destruct (Py.int n p) as [k|e] eqn:Hp.
    + destruct ((0 <=? k) && (k <=? 255)) eqn:Hk.
      * rewrite IH. split.
        -- intros Hps. constructor; [|assumption].
           exists k. split; [assumption | now apply in_range_iff].
        -- intros H. now inversion H.
      * split; [discriminate|]. intros H.
        destruct (Forall_inv H) as [k' [Hk' Hr]].
        rewrite Hp in Hk'. inversion Hk'; subst k'.
        apply in_range_iff in Hr. congruence.
    + split; [discriminate|]. intros H.
      destruct (Forall_inv H) as [k' [Hk' _]]. congruence.
Qed.

Lemma is_valid_ip_total (s : pystr) : exists b, is_valid_ip n s = Ret b.
Proof.
  unfold is_valid_ip.
  destruct (negb (Nat.eqb (List.length (Py.split dot s)) 4)); [now exists false|].
  destruct (all_octets n (Py.split dot s)) as [b|e] eqn:Ha; [now exists b|].
  apply all_octets_raises in Ha. subst e. now exists false.
Qed.

Lemma is_valid_ip_true (s : pystr) :
  is_valid_ip n s = Ret true <-> spec_valid_ip n s.
Proof.
  unfold is_valid_ip, spec_valid_ip, segment_ok. split.
  - destruct (Nat.eqb_spec (List.length (Py.split dot s)) 4) as [Hl|_];
      simpl; [|discriminate].
    destruct (split_join dot s) as [Hf Hj].
    destruct (Py.split dot s) as [|a [|b [|c [|d [|? ?]]]]]; try discriminate.
    destruct (all_octets n [a; b; c; d]) as [r|e] eqn:Ha.
    + intros H; inversion H; subst r. apply all_octets_true in Ha.
      exists a, b, c, d. simpl in Hj.
      repeat match goal with
             | H : Forall _ (_ :: _) |- _ => inversion H; clear H; subst
             end.
      repeat split; auto.
    + apply all_octets_raises in Ha. subst e. simpl. discriminate.
  - intros (a & b & c & d & -> & [Ha Ia] & [Hb Ib] & [Hc Ic] & [Hd Id]).
    rewrite !split_app, (split_no_sep dot d) by assumption.
    cbn [List.length Nat.eqb negb].
    match goal with
    | |- context [all_octets n ?l] =>
      assert (H : all_octets n l = Ret true)
        by (apply all_octets_true; repeat constructor; assumption)
    end.
    now rewrite H.
Qed.

(** C1: [is_valid_ip] raises for no input, and it answers true exactly
    for the strings made of four dot-separated segments that [int]
    parses to a number between 0 and 255; every other shape answers
    false. *)
Theorem is_valid_ip_spec (s : pystr) :
  exists b, is_valid_ip n s = Ret b /\ (b = true <-> spec_valid_ip n s).
Proof.
  destruct (is_valid_ip_total s) as [b Hb]. exists b. split; [assumption|].
  rewrite <- is_valid_ip_true, Hb. split; congruence.
Qed.

End ValidatorFacts.

(** ** Running the handlers *)

Arguments u : simpl never.

(** The value that decides the next step of a run. *)
Ltac scrutinee t :=
  lazymatch t with
  | match ?x with _ => _ end =>
    match constr:(Set) with
    | _ => scrutinee x
    | _ => constr:(x)
    end
  | ?f _ => scrutinee f
  end.

Ltac run_step :=
  lazymatch goal with
  | |- ?lhs = _ -> _ => let x := scrutinee lhs in destruct x eqn:?
  | |- ?lhs = _ => let x := scrutinee lhs in destruct x eqn:?
  end.

Ltac unfold_lookup :=
  unfold get_ip_info, get_ip_info_try, try_except, requests_get, bind, lift,
    emit, check, write_file, ret, raise, get, getitem.

Ltac run_lookup :=
  repeat (run_step; cbn [handle any_exception ret trace disk]).

(** ** The lookup client *)

Section LookupFacts.

Variable E : env.

Lemma get_ip_info_returns (ip : value) (s : state) :
  exists r s', get_ip_info E ip s = (Ret r, s').
Proof.
  unfold get_ip_info, try_except.
  destruct (get_ip_info_try E ip s) as [[r|e] s']; [now exists r, s'|].
  cbn [handle any_exception]. destruct (is_RequestException (exn_cls e));
    unfold ret; eauto.
Qed.

(** What a returned record tells about the run: one request was sent,
    and the second component is either [None], with the disk untouched,
    or the name built from the response's [query], with that file
    written. *)
Lemma get_ip_info_record (ip : value) (s s' : state) (data : dict) (v : value) :
  get_ip_info E ip s = (Ret (Some data, v), s') ->
  trace s' = trace s ++ [HttpGet (geo_url E ip) 10]
  /\ ((v = VNone /\ disk s' = disk s)
      \/ exists d q,
           requests_get_json E (geo_url E ip) 10 = Ret (VDict d)
           /\ dict_get d (u "query") = Some q
           /\ v = VStr (map_name E q)
           /\ disk s' = map_name E q :: disk s).
Proof.
  unfold_lookup. cbn [handle fst snd trace disk]. run_lookup.
  all: intros H; inversion H; subst; cbn [trace disk].
  all: split; [reflexivity|].
  all: first [ left; split; reflexivity | right; eauto 10 ].
Qed.

(** A record comes from a response that does not report failure. *)
Lemma get_ip_info_record_status (ip : value) (s s' : state)
      (data : dict) (v : value) :
  get_ip_info E ip s = (Ret (Some data, v), s') ->
  get_ip_info_try E ip s = (Ret (Some data, v), s')
  /\ exists d, requests_get_json E (geo_url E ip) 10 = Ret (VDict d)
               /\ eq_str (field d "status") (u "fail") = false.
Proof.
  unfold field. unfold_lookup. cbn [handle fst snd trace disk]. run_lookup.
  all: intros H; inversion H; subst; cbn [trace disk].
  all: split; [reflexivity | eauto].
Qed.

(** C4: the three failure paths of [get_ip_info] and their messages; the
    function itself never raises, and a record is returned only by a run
    of the [try] block that raised nothing, on a response that does not
    report failure, next to [None] or a map file name. *)
Theorem get_ip_info_failures (ip : value) (s : state) :
  (forall d,
      requests_get_json E (geo_url E ip) 10 = Ret (VDict d) ->
      dict_get d (u "status") = Some (VStr (u "fail")) ->
      get_ip_info E ip s
      = (Ret (None, match dict_get d (u "message") with
                    | Some m => m
                    | None => VStr (u "Unknown error")
                    end),
         logged s [HttpGet (geo_url E ip) 10]))
  /\ (forall e,
         requests_get_json E (geo_url E ip) 10 = Raise e ->
         is_RequestException (exn_cls e) = true ->
         get_ip_info E ip s
         = (Ret (None, VStr (u "Ошибка сети: " ++ exn_str e)),
            logged s [HttpGet (geo_url E ip) 10]))
  /\ (forall e s',
         get_ip_info_try E ip s = (Raise e, s') ->
         is_RequestException (exn_cls e) = false ->
         get_ip_info E ip s
         = (Ret (None, VStr (u "Произошла ошибка: " ++ exn_str e)), s'))
  /\ (exists r s', get_ip_info E ip s = (Ret r, s'))
  /\ (forall data v s',
         get_ip_info E ip s = (Ret (Some data, v), s') ->
         get_ip_info_try E ip s = (Ret (Some data, v), s')
         /\ (exists d, requests_get_json E (geo_url E ip) 10 = Ret (VDict d)
                       /\ eq_str (field d "status") (u "fail") = false)
         /\ (v = VNone \/ exists q, v = VStr (map_name E q))).
Proof.
  repeat split.
  - intros d Hreq Hst. unfold_lookup. cbn [handle fst snd trace disk].
    rewrite Hreq, Hst. cbn [eq_str]. rewrite str_eqb_refl. reflexivity.
  - intros e Hreq He. unfold_lookup. cbn [handle fst snd trace disk].
    rewrite Hreq. cbn [handle]. rewrite He. reflexivity.
  - intros e s' Htry He. unfold get_ip_info, try_except. rewrite Htry.
    cbn [handle any_exception]. rewrite He. reflexivity.
  - apply get_ip_info_returns.
  - now apply get_ip_info_record_status in H.
  - now apply get_ip_info_record_status in H.
  - apply get_ip_info_record in H. destruct H as [_ [[-> _]|(d & q & _ & _ & -> & _)]];
      [now left | right; now exists q].
Qed.

(** A coordinate that is false as an object (absent, [None], zero) sends
    the run past the map: the record comes back with [None] and nothing
    is written. *)
Lemma get_ip_info_falsy_coordinate (ip : value) (s : state) (d : dict) :
  requests_get_json E (geo_url E ip) 10 = Ret (VDict d) ->
  eq_str (field d "status") (u "fail") = false ->
  truthy (field d "lat") && truthy (field d "lon") = false ->
  exists data,
    get_ip_info E ip s
    = (Ret (Some data, VNone), logged s [HttpGet (geo_url E ip) 10]).
Proof.
  unfold field. intros Hreq Hst Hc. unfold_lookup.
  cbn [handle fst snd trace disk]. rewrite Hreq, Hst.
  destruct (truthy _) eqn:Hlat in Hc; rewrite Hlat.
  - cbn [andb] in Hc. rewrite Hc. eexists. reflexivity.
  - eexists. reflexivity.
Qed.

(** Both coordinates true as objects, the map built and saved, [query]
    present: the record comes back with the file name, and the file is
    on disk. *)
Lemma get_ip_info_map (ip : value) (s : state) (d : dict) (q : value) :
  requests_get_json E (geo_url E ip) 10 = Ret (VDict d) ->
  eq_str (field d "status") (u "fail") = false ->
  truthy (field d "lat") = true ->
  truthy (field d "lon") = true ->
  folium_Map E (field d "lat") (field d "lon") 12 = None ->
  folium_Marker E (field d "lat") (field d "lon")
                (match dict_get d (u "city") with
                 | Some c => c
                 | None => VStr (u "Unknown location")
                 end) = None ->
  dict_get d (u "query") = Some q ->
  folium_save E (map_name E q) = None ->
  exists data,
    get_ip_info E ip s
    = (Ret (Some data, VStr (map_name E q)),
       {| trace := trace s ++ [HttpGet (geo_url E ip) 10];
          disk := map_name E q :: disk s |}).
Proof.
  unfold field. intros Hreq Hst Hlat Hlon HMap HMarker Hq Hsave. unfold_lookup.
  cbn [handle fst snd trace disk]. rewrite Hreq, Hst, Hlat, Hlon.
  destruct (dict_get d (u "lat")) as [lat|]; [|discriminate].
  destruct (dict_get d (u "lon")) as [lon|]; [|discriminate].
  rewrite HMap, HMarker, Hq, Hsave. eexists. reflexivity.
Qed.

(** C8 (as amended): the name of a produced artifact is [ip_map_<q>.html]
    for the [query] field [q] of the provider's response, hence a
    function of that field alone; it is [ip_map_<ip>.html] whenever the
    provider echoes the looked-up IP there. *)
Theorem map_filename_from_query (ip : value) (s s' : state)
        (data : dict) (path : pystr) :
  get_ip_info E ip s = (Ret (Some data, VStr path), s') ->
  exists d q,
    requests_get_json E (geo_url E ip) 10 = Ret (VDict d)
    /\ dict_get d (u "query") = Some q
    /\ path = u "ip_map_" ++ format E q ++ u ".html"
    /\ (q = ip -> path = u "ip_map_" ++ format E ip ++ u ".html").
Proof.
  intros H. apply get_ip_info_record in H.
  destruct H as [_ [[Hv _]|(d & q & Hreq & Hq & Hv & _)]]; [discriminate|].
  inversion Hv; subst path. exists d, q. repeat split; try assumption.
  now intros ->.
Qed.

End LookupFacts.

(** ** The conversation handlers *)

Section HandlerFacts.

Variable E : env.

Lemma send_run (ev : event) (s : state) :
  send E ev s
  = (match transport E (trace s) ev with
     | None => Ret tt
     | Some e => Raise e
     end, logged s [ev]).
Proof.
  unfold send, emit, logged. now destruct (transport E (trace s) ev).
Qed.

Lemma send_raises (ev : event) (s s' : state) (e : exn) :
  send E ev s = (Raise e, s') -> transport E (trace s) ev = Some e.
Proof.
  rewrite send_run. destruct (transport E (trace s) ev); congruence.
Qed.

Lemma map_name_truthy (q : value) : truthy (VStr (map_name E q)) = true.
Proof. reflexivity. Qed.

Lemma filter_removes (path : pystr) (l : list pystr) :
  ~ In path (filter (fun p => negb (str_eqb path p)) l).
Proof.
  rewrite filter_In, str_eqb_refl. intros [_ H]. discriminate.
Qed.

Lemma filter_absent (path : pystr) (l : list pystr) :
  existsb (str_eqb path) l = false ->
  filter (fun p => negb (str_eqb path p)) l = l.
Proof.
  induction l as [|p l IH]; simpl; [reflexivity|].
  intros H. apply orb_false_iff in H. destruct H as [-> H].
  simpl. now rewrite IH.
Qed.

(** The [finally] block of [process_ip_request] leaves the result of the
    [try] block as it is and the disk without the artifact. *)
Lemma try_finally_cleanup (body : M unit) (path : pystr) (s s' : state)
      (r : pyresult unit) :
  body s = (r, s') ->
  try_finally body
    (bind (os_path_exists path)
          (fun present => if (present : bool) then os_remove path else ret tt)) s
  = (r, {| trace := trace s';
           disk := filter (fun p => negb (str_eqb path p)) (disk s') |}).
Proof.
  intros Hb. unfold try_finally, bind, os_path_exists, os_remove, ret.
  rewrite Hb. destruct (existsb (str_eqb path) (disk s')) eqn:Hex.
  - reflexivity.
  - rewrite filter_absent by assumption. now destruct s'.
Qed.

(** The two sends of the map branch. *)
Lemma reply_with_map (m : Message) (text path : pystr) (s : state) :
  exists r evs,
    bind (answer E m text NoMarkup)
         (fun _ => answer_document E m path map_caption) s
    = (r, logged s (Answer (chat m) text NoMarkup :: evs))
    /\ (evs = [] \/ evs = [AnswerDocument (chat m) path map_caption])
    /\ (forall e, r = Raise e -> exists h ev, transport E h ev = Some e)
    /\ (transport_reliable E ->
        r = Ret tt /\ evs = [AnswerDocument (chat m) path map_caption]).
Proof.
  unfold bind, answer, answer_document. rewrite send_run.
  destruct (transport E (trace s) _) as [e|] eqn:H1; cbv beta iota.
  - exists (Raise e), []. repeat split; auto.
    + intros e' He'. inversion He'; subst. eauto.
    + rewrite H in H1. discriminate.
    + rewrite H in H1. discriminate.
  - rewrite send_run.
    exists (match transport E (trace (logged s [Answer (chat m) text NoMarkup]))
                            (AnswerDocument (chat m) path map_caption) with
            | None => Ret tt
            | Some e => Raise e
            end), [AnswerDocument (chat m) path map_caption].
    unfold logged. cbn [trace disk]. rewrite <- app_assoc. repeat split; auto.
    + intros e He. destruct (transport E _ (AnswerDocument _ _ _)) eqn:H2;
        inversion He; subst. eauto.
    + now rewrite H.
Qed.

(** C3: once [get_ip_info] has handed a map file name to
    [process_ip_request], the file is off the disk when the handler is
    left, whatever the two sends do. *)
Theorem artifact_removed (m : Message) (ip : value) (s s0 s1 : state)
        (data : dict) (path : pystr) :
  send_chat_action E (chat m) (u "typing") s = (Ret tt, s0) ->
  get_ip_info E ip s0 = (Ret (Some data, VStr path), s1) ->
  ~ In path (disk (snd (process_ip_request E m ip s)))
  /\ disk (snd (process_ip_request E m ip s))
     = filter (fun p => negb (str_eqb path p)) (disk s1).
Proof.
  intros Htyping Hinfo.
  destruct (get_ip_info_record E _ _ _ _ _ Hinfo)
    as [_ [[Hv _]|(d & q & _ & _ & Hv & _)]]; [discriminate|].
  inversion Hv; subst path.
  destruct (reply_with_map m (info_text E data) (map_name E q) s1)
    as (r & evs & Hrun & _).
  assert (Hreq : process_ip_request E m ip s
                 = (r, {| trace := trace s1
                                   ++ Answer (chat m) (info_text E data) NoMarkup
                                   :: evs;
                          disk := filter
                                    (fun p => negb (str_eqb (map_name E q) p))
                                    (disk s1) |})).
  { unfold process_ip_request. unfold bind at 1. rewrite Htyping.
    unfold bind at 1. rewrite Hinfo, map_name_truthy.
    now rewrite (try_finally_cleanup _ _ _ _ _ Hrun). }
  rewrite Hreq. cbn [snd disk].
  split; [apply filter_removes | reflexivity].
Qed.

Lemma logged_logged (s : state) (a b : list event) :
  logged (logged s a) b = logged s (a ++ b).
Proof. unfold logged. cbn [trace disk]. now rewrite app_assoc. Qed.

Lemma typing_reliable (m : Message) (s : state) :
  transport_reliable E ->
  send_chat_action E (chat m) (u "typing") s
  = (Ret tt, logged s [SendChatAction (chat m) (u "typing")]).
Proof. intros Hr. unfold send_chat_action. now rewrite send_run, Hr. Qed.

(** Whatever [process_ip_request] raises was raised by the transport. *)
Lemma process_ip_request_raises (m : Message) (ip : value) (s s' : state)
      (e : exn) :
  process_ip_request E m ip s = (Raise e, s') ->
  exists history ev, transport E history ev = Some e.
Proof.
  unfold process_ip_request. unfold bind at 1. unfold send_chat_action.
  rewrite send_run.
  destruct (transport E (trace s) _) as [e0|] eqn:Ht.
  { intros H; inversion H; subst. eauto. }
  unfold bind at 1.
  destruct (get_ip_info_returns E ip
              (logged s [SendChatAction (chat m) (u "typing")]))
    as ([[data|] v] & s1 & Hinfo); rewrite Hinfo.
  - destruct (get_ip_info_record E _ _ _ _ _ Hinfo)
      as [_ [[Hv _]|(d & q & _ & _ & Hv & _)]]; subst v.
    + cbn [truthy]. unfold answer. intros H. apply send_raises in H. eauto.
    + rewrite map_name_truthy.
      destruct (reply_with_map m (info_text E data) (map_name E q) s1)
        as (r & evs & Hrun & _ & Hraise & _).
      rewrite (try_finally_cleanup _ _ _ _ _ Hrun).
      intros H; inversion H; subst. now apply Hraise.
  - unfold answer. intros H. apply send_raises in H. eauto.
Qed.

(** C7: a lookup that gives a record is answered, over a transport that
    does not fail, by one typing indicator, the request, and then either
    the bare text followed by the attachment with its caption, or the
    text with the warning appended and no attachment. *)
Theorem process_ip_request_replies (m : Message) (ip : value) (s s1 : state)
        (data : dict) (v : value) :
  transport_reliable E ->
  get_ip_info E ip (logged s [SendChatAction (chat m) (u "typing")])
  = (Ret (Some data, v), s1) ->
  (v = VNone
   /\ process_ip_request E m ip s
      = (Ret tt,
         {| trace := trace s
                     ++ [SendChatAction (chat m) (u "typing");
                         HttpGet (geo_url E ip) 10;
                         Answer (chat m) (info_text E data ++ map_warning)
                                NoMarkup];
            disk := disk s |}))
  \/ (exists path,
         v = VStr path
         /\ process_ip_request E m ip s
            = (Ret tt,
               {| trace := trace s
                           ++ [SendChatAction (chat m) (u "typing");
                               HttpGet (geo_url E ip) 10;
                               Answer (chat m) (info_text E data) NoMarkup;
                               AnswerDocument (chat m) path map_caption];
                  disk := filter (fun p => negb (str_eqb path p)) (disk s) |})).
Proof.
  intros Hr Hinfo. pose proof (typing_reliable m s Hr) as Htyping.
  destruct (get_ip_info_record E _ _ _ _ _ Hinfo)
    as [Htr [[Hv Hd]|(d & q & _ & _ & Hv & Hd)]]; subst v;
    cbn [logged trace disk] in Htr, Hd.
  - left. split; [reflexivity|].
    unfold process_ip_request. unfold bind at 1. rewrite Htyping.
    unfold bind at 1. rewrite Hinfo. cbn [truthy]. unfold answer.
    rewrite send_run, Hr. unfold logged. rewrite Htr, Hd, <- !app_assoc.
    reflexivity.
  - right. exists (map_name E q). split; [reflexivity|].
    destruct (reply_with_map m (info_text E data) (map_name E q) s1)
      as (r & evs & Hrun & _ & _ & Hok).
    destruct (Hok Hr) as [-> ->].
    unfold process_ip_request. unfold bind at 1. rewrite Htyping.
    unfold bind at 1. rewrite Hinfo, map_name_truthy.
    rewrite (try_finally_cleanup _ _ _ _ _ Hrun). cbn [logged trace disk].
    rewrite Htr, Hd, <- !app_assoc. cbn [filter app].
    now rewrite str_eqb_refl.
Qed.

Lemma str_eqb_neq (a b : pystr) : a <> b -> str_eqb a b = false.
Proof.
  intros H. destruct (str_eqb a b) eqn:Heq; [|reflexivity].
  now apply str_eqb_eq in Heq.
Qed.

Lemma text_truthy (t : pystr) : t <> [] -> truthy (VStr t) = true.
Proof. now destruct t. Qed.

(** A text that lower-cases to the button's label is routed to
    [cmd_my_ip]. *)
Lemma dispatch_my_ip (m : Message) (t : pystr) :
  text m = Some t -> t <> [] -> lower E t = u "мой ip" ->
  command_start E m = false ->
  dispatch E m = cmd_my_ip E m.
Proof.
  intros Ht Hne Hl Hc. unfold dispatch, filter_help, filter_my_ip.
  rewrite Hc, Ht, Hl, (text_truthy t Hne). reflexivity.
Qed.



Lemma cmd_my_ip_undetermined (m : Message) (s : state) (d : dict) :
  transport_foreign E ->
  requests_get_json E ipify_url 5 = Ret (VDict d) ->
  truthy (field d "ip") = false ->
  exists r,
    cmd_my_ip E m s
    = (r, logged s [HttpGet ipify_url 5;
                    Answer (chat m) undetermined_text NoMarkup]).
Proof.
  unfold field. intros Hf Hreq Hu.
  unfold cmd_my_ip, try_except, requests_get, lift, emit, get.
  unfold bind at 1 2 3. rewrite Hreq, Hu. fold (logged s [HttpGet ipify_url 5]).
  unfold answer. rewrite send_run, logged_logged. cbn [app].
  destruct (transport E _ _) as [e|] eqn:Ht.
  - cbn [handle]. rewrite (Hf _ _ _ Ht). eexists. reflexivity.
  - eexists. reflexivity.
Qed.

(** Whatever leaves [cmd_my_ip], when its own call fails with a
    [RequestException] or yields a JSON object, was raised by the
    transport. *)
Lemma cmd_my_ip_raises (m : Message) (s s' : state) (e : exn) :
  (exists d, requests_get_json E ipify_url 5 = Ret (VDict d))
  \/ (exists e0, requests_get_json E ipify_url 5 = Raise e0
                 /\ is_RequestException (exn_cls e0) = true) ->
  cmd_my_ip E m s = (Raise e, s') ->
  exists history ev, transport E history ev = Some e.
Proof.
  assert (Hmanual : forall s1,
             answer E m manual_entry_text NoMarkup s1 = (Raise e, s') ->
             exists history ev, transport E history ev = Some e).
  { intros s1 H. apply send_raises in H. eauto. }
  unfold cmd_my_ip, try_except, requests_get, lift, emit, get.
  unfold bind at 1 2 3. intros [[d Hreq]|(e0 & Hreq & He0)]; rewrite Hreq.
  - destruct (truthy _).
    + destruct (process_ip_request E m _ _) as [[[]|e1] s1] eqn:Hrun;
        [discriminate|].
      cbn [handle]. destruct (is_RequestException (exn_cls e1));
        [apply Hmanual|].
      intros H; inversion H; subst.
      now apply process_ip_request_raises in Hrun.
    + unfold answer at 1. rewrite send_run.
      destruct (transport E _ _) as [e1|] eqn:Ht; [|discriminate].
      cbn [handle]. destruct (is_RequestException (exn_cls e1));
        [apply Hmanual|].
      intros H; inversion H; subst. eauto.
  - cbn [handle]. rewrite He0. apply Hmanual.
Qed.

(** X15: where the handlers do keep failures in.  [get_ip_info] turns
    every outcome of its call into a result; whatever
    [process_ip_request] or [process_ip] raise was raised by a call to
    the chat transport, and so is whatever [cmd_my_ip] raises when its
    own call fails with a [RequestException] or yields a JSON object; so
    over a transport that does not fail they return. *)
Theorem handlers_do_not_raise :
  (forall ip s, exists r, fst (get_ip_info E ip s) = Ret r)
  /\ (forall m ip s e,
         fst (process_ip_request E m ip s) = Raise e ->
         exists history ev, transport E history ev = Some e)
  /\ (forall m t s e,
         text m = Some t ->
         fst (process_ip E m s) = Raise e ->
         exists history ev, transport E history ev = Some e)
  /\ (forall m s e,
         (exists d, requests_get_json E ipify_url 5 = Ret (VDict d))
         \/ (exists e0, requests_get_json E ipify_url 5 = Raise e0
                        /\ is_RequestException (exn_cls e0) = true) ->
         fst (cmd_my_ip E m s) = Raise e ->
         exists history ev, transport E history ev = Some e)
  /\ (transport_reliable E ->
      forall m s,
        (forall ip, fst (process_ip_request E m ip s) = Ret tt)
        /\ ((exists d, requests_get_json E ipify_url 5 = Ret (VDict d))
            \/ (exists e0, requests_get_json E ipify_url 5 = Raise e0
                           /\ is_RequestException (exn_cls e0) = true) ->
            fst (cmd_my_ip E m s) = Ret tt)).
Proof.
  assert (Hreq : forall m ip s e,
             fst (process_ip_request E m ip s) = Raise e ->
             exists history ev, transport E history ev = Some e).
  { intros m ip s e H.
    destruct (process_ip_request E m ip s) as [r s'] eqn:Hrun.
    cbn [fst] in H. subst r. now apply process_ip_request_raises in Hrun. }
  assert (Hmy : forall m s e,
             (exists d, requests_get_json E ipify_url 5 = Ret (VDict d))
             \/ (exists e0, requests_get_json E ipify_url 5 = Raise e0
                            /\ is_RequestException (exn_cls e0) = true) ->
             fst (cmd_my_ip E m s) = Raise e ->
             exists history ev, transport E history ev = Some e).
  { intros m s e Hipify H.
    destruct (cmd_my_ip E m s) as [r s'] eqn:Hrun.
    cbn [fst] in H. subst r. now apply cmd_my_ip_raises in Hrun. }
  split; [|split; [|split; [|split]]].
  - intros ip s. destruct (get_ip_info_returns E ip s) as (r & s' & H).
    exists r. now rewrite H.
  - exact Hreq.
  - intros m t s e Ht. unfold process_ip. rewrite Ht. apply Hreq.
  - exact Hmy.
  - intros Hr m s. split.
    + intros ip. destruct (fst (process_ip_request E m ip s)) as [[]|e] eqn:H;
        [reflexivity|].
      apply Hreq in H. destruct H as (h & ev & H). rewrite Hr in H.
      discriminate.
    + intros Hipify. destruct (fst (cmd_my_ip E m s)) as [[]|e] eqn:H;
        [reflexivity|].
      apply (Hmy m s e Hipify) in H. destruct H as (h & ev & H).
      rewrite Hr in H. discriminate.
Qed.


(** C10: when the resolver's call yields a JSON object whose [ip] is
    absent, [None] or empty, the only calls made are that request and one
    message saying the IP could not be determined, a text other than the
    one asking for manual entry. *)
Theorem my_ip_undetermined (m : Message) (t : pystr) (s : state) (d : dict) :
  text m = Some t -> t <> [] -> lower E t = u "мой ip" ->
  command_start E m = false ->
  transport_foreign E ->
  requests_get_json E ipify_url 5 = Ret (VDict d) ->
  truthy (field d "ip") = false ->
  (exists r,
      dispatch E m s
      = (r, logged s [HttpGet ipify_url 5;
                      Answer (chat m) undetermined_text NoMarkup]))
  /\ undetermined_text <> manual_entry_text.
Proof.
  intros Ht Hne Hl Hc Hf Hreq Hu. rewrite (dispatch_my_ip m t Ht Hne Hl Hc).
  split; [now apply (cmd_my_ip_undetermined m s d)|].
  intros H. apply str_eqb_eq in H. vm_compute in H. discriminate.
Qed.

(** C9: a text that is no start command, lower-cases to neither button
    label and fails the validator reaches no handler: nothing is sent,
    nothing is requested, nothing is raised. *)
Theorem unmatched_message_ignored (m : Message) (t : pystr) (s : state) :
  text m = Some t ->
  command_start E m = false ->
  lower E t <> u "помощь" ->
  lower E t <> u "мой ip" ->
  is_valid_ip (max_str_digits E) t = Ret false ->
  dispatch E m s = (Ret tt, s).
Proof.
  intros Ht Hc Hh Hm Hv. unfold dispatch, filter_help, filter_my_ip, filter_ip.
  rewrite Hc, Ht, (str_eqb_neq _ _ Hh), (str_eqb_neq _ _ Hm), !andb_false_r, Hv.
  now destruct (truthy (VStr t)).
Qed.

End HandlerFacts.

(** ** The handlers on concrete worlds *)

Example ex_u : u "мой ip" = [0x43C; 0x43E; 0x439; 0x20; 0x69; 0x70]%N.
Proof. reflexivity. Qed.

Example ex_valid_8888 : is_valid_ip 4300 (u "8.8.8.8") = Ret true.
Proof. reflexivity. Qed.

Example ex_valid_256 : is_valid_ip 4300 (u "8.8.8.256") = Ret false.
Proof. reflexivity. Qed.

Example ex_valid_three_parts : is_valid_ip 4300 (u "8.8.8") = Ret false.
Proof. reflexivity. Qed.

Example ex_valid_letters : is_valid_ip 4300 (u "abc.8.8.8") = Ret false.
Proof. reflexivity. Qed.

Example ex_valid_leading_zero : is_valid_ip 4300 (u "008.8.8.08") = Ret true.
Proof. reflexivity. Qed.

(** [all] stops at the first segment out of range; the one that does not
    parse is never reached. *)
Example ex_valid_stops_early : is_valid_ip 4300 (u "256.x.8.8") = Ret false.
Proof. reflexivity. Qed.

(** [int] takes blanks around a segment, a sign, single underscores
    between digits and the decimal digits of other scripts. *)
Example ex_valid_int_rule :
  is_valid_ip 4300 (u " 8.+8.0_8.٨") = Ret true
  /\ is_valid_ip 4300 (u "-1.8.8.8") = Ret false
  /\ is_valid_ip 4300 (u "8.8.8._8") = Ret false.
Proof. repeat split. Qed.

(** C2: a successful response whose longitude is zero carries both
    coordinates, and yet the record comes back with [None] in place of a
    map file name and no file is written. *)
Theorem zero_longitude_gets_no_map :
  let E := sample_env (Raise timed_out)
                      (Ret (geo_response "8.8.8.8" 51.5 0)) reliable in
  exists data,
    get_ip_info E (VStr (u "8.8.8.8")) s0
    = (Ret (Some data, VNone),
       logged s0 [HttpGet (u "http://ip-api.com/json/8.8.8.8") 10])
    /\ dict_get data (u "Широта") = Some (VFloat 51.5)
    /\ dict_get data (u "Долгота") = Some (VFloat 0).
Proof. cbv zeta. eexists. repeat split. Qed.

(** The specification's examples of the lookup: a failure reported by
    the provider, and a call that times out. *)
Lemma get_ip_info_failures_witness :
  get_ip_info (sample_env (Raise timed_out) (Ret geo_failure) reliable)
              (VStr (u "8.8.8.8")) s0
  = (Ret (None, VStr (u "invalid query")),
     logged s0 [HttpGet (u "http://ip-api.com/json/8.8.8.8") 10])
  /\ get_ip_info (sample_env (Raise timed_out) (Raise timed_out) reliable)
                 (VStr (u "8.8.8.8")) s0
     = (Ret (None, VStr (u "Ошибка сети: Read timed out.")),
        logged s0 [HttpGet (u "http://ip-api.com/json/8.8.8.8") 10])
  /\ get_ip_info (sample_env (Raise timed_out) (Ret (VList [])) reliable)
                 (VStr (u "8.8.8.8")) s0
     = (Ret (None,
             VStr (u "Произошла ошибка: 'list' object has no attribute 'get'")),
        logged s0 [HttpGet (u "http://ip-api.com/json/8.8.8.8") 10]).
Proof.
  split; [|split].
  - exact (proj1 (get_ip_info_failures
                    (sample_env (Raise timed_out) (Ret geo_failure) reliable)
                    (VStr (u "8.8.8.8")) s0)
                 [ (u "status", VStr (u "fail"));
                   (u "message", VStr (u "invalid query"));
                   (u "query", VStr (u "8.8.8.8")) ]
                 eq_refl eq_refl).
  - exact (proj1 (proj2 (get_ip_info_failures
                           (sample_env (Raise timed_out) (Raise timed_out)
                                       reliable)
                           (VStr (u "8.8.8.8")) s0))
                 timed_out eq_refl eq_refl).
  - exact (proj1 (proj2 (proj2 (get_ip_info_failures
                                  (sample_env (Raise timed_out)
                                              (Ret (VList [])) reliable)
                                  (VStr (u "8.8.8.8")) s0)))
                 (no_attribute (VList []) (u "get"))
                 (logged s0 [HttpGet (u "http://ip-api.com/json/8.8.8.8") 10])
                 eq_refl eq_refl).
Defined.

(** The attachment cannot be delivered; the file is gone all the same. *)
Lemma artifact_removed_witness :
  let E := sample_env (Raise timed_out)
                      (Ret (geo_response "8.8.8.8" 37 (-122)))
                      attachment_fails in
  fst (process_ip_request E (msg "8.8.8.8") (VStr (u "8.8.8.8")) s0)
  = Raise telegram_down
  /\ ~ In (u "ip_map_8.8.8.8.html")
          (disk (snd (process_ip_request E (msg "8.8.8.8")
                                         (VStr (u "8.8.8.8")) s0))).
Proof.
  cbv zeta. split; [reflexivity|].
  eapply proj1. eapply artifact_removed; reflexivity.
Defined.

(** The specification's two successful responses: coordinates 37.0 and
    -122.0, and no coordinates at all. *)
Lemma process_ip_request_replies_witness :
  let E := sample_env (Raise timed_out)
                      (Ret (geo_response "8.8.8.8" 37 (-122))) reliable in
  let E' := sample_env (Raise timed_out) (Ret geo_without_coordinates)
                       reliable in
  (exists data,
      process_ip_request E (msg "8.8.8.8") (VStr (u "8.8.8.8")) s0
      = (Ret tt,
         {| trace := [ SendChatAction 1 (u "typing");
                       HttpGet (u "http://ip-api.com/json/8.8.8.8") 10;
                       Answer 1 (info_text E data) NoMarkup;
                       AnswerDocument 1 (u "ip_map_8.8.8.8.html")
                                      map_caption ];
            disk := [] |}))
  /\ (exists data,
         process_ip_request E' (msg "8.8.8.8") (VStr (u "8.8.8.8")) s0
         = (Ret tt,
            {| trace := [ SendChatAction 1 (u "typing");
                          HttpGet (u "http://ip-api.com/json/8.8.8.8") 10;
                          Answer 1 (info_text E' data ++ map_warning)
                                 NoMarkup ];
               disk := [] |})).
Proof.
  cbv zeta. split; eexists.
  - edestruct (process_ip_request_replies
                 (sample_env (Raise timed_out)
                             (Ret (geo_response "8.8.8.8" 37 (-122))) reliable)
                 (msg "8.8.8.8") (VStr (u "8.8.8.8")) s0)
      as [[Hv _]|(path & Hv & H)].
    + intros history ev. reflexivity.
    + reflexivity.
    + discriminate Hv.
    + injection Hv as <-. exact H.
  - edestruct (process_ip_request_replies
                 (sample_env (Raise timed_out) (Ret geo_without_coordinates)
                             reliable)
                 (msg "8.8.8.8") (VStr (u "8.8.8.8")) s0)
      as [[_ H]|(path & Hv & _)].
    + intros history ev. reflexivity.
    + reflexivity.
    + exact H.
    + discriminate Hv.
Defined.

(** Both HTTP calls time out: the resolver's failure is answered with the
    request for manual entry, the lookup's with an error message, and
    neither handler raises. *)
Lemma handlers_do_not_raise_witness :
  let E := sample_env (Raise timed_out) (Raise timed_out) reliable in
  fst (cmd_my_ip E (msg "Мой IP") s0) = Ret tt
  /\ fst (process_ip_request E (msg "8.8.8.8") (VStr (u "8.8.8.8")) s0)
     = Ret tt
  /\ trace (snd (process_ip E (msg "8.8.8.8") s0))
     = [ SendChatAction 1 (u "typing");
         HttpGet (u "http://ip-api.com/json/8.8.8.8") 10;
         Answer 1 (u "❌ Ошибка сети: Read timed out.") NoMarkup ].
Proof.
  cbv zeta.
  destruct (proj2 (proj2 (proj2 (proj2
              (handlers_do_not_raise
                 (sample_env (Raise timed_out) (Raise timed_out) reliable)))))
              (fun _ _ => eq_refl) (msg "Мой IP") s0) as [_ Hmy].
  destruct (proj2 (proj2 (proj2 (proj2
              (handlers_do_not_raise
                 (sample_env (Raise timed_out) (Raise timed_out) reliable)))))
              (fun _ _ => eq_refl) (msg "8.8.8.8") s0) as [Hip _].
  split; [|split].
  - apply Hmy. right. exists timed_out. split; reflexivity.
  - exact (Hip (VStr (u "8.8.8.8"))).
  - reflexivity.
Defined.


(** The resolver answers with an object whose [ip] is [None]. *)
Lemma my_ip_undetermined_witness :
  exists r,
    dispatch (sample_env (Ret (VDict [ (u "ip", VNone) ])) (Ret geo_failure)
                         reliable)
             (msg "мой IP") s0
    = (r, logged s0 [HttpGet ipify_url 5;
                     Answer 1 undetermined_text NoMarkup]).
Proof.
  refine (proj1 (my_ip_undetermined
                   (sample_env (Ret (VDict [ (u "ip", VNone) ]))
                               (Ret geo_failure) reliable)
                   (msg "мой IP") (u "мой IP") s0 [ (u "ip", VNone) ]
                   eq_refl _ eq_refl eq_refl _ eq_refl eq_refl)).
  - discriminate.
  - intros history ev e He. discriminate He.
Defined.

(** The specification's example of a text that matches nothing. *)
Lemma unmatched_message_ignored_witness :
  dispatch (sample_env (Ret ipify_response)
                       (Ret (geo_response "8.8.8.8" 37 (-122))) reliable)
           (msg "not an ip") s0
  = (Ret tt, s0).
Proof.
  refine (unmatched_message_ignored
            (sample_env (Ret ipify_response)
                        (Ret (geo_response "8.8.8.8" 37 (-122))) reliable)
            (msg "not an ip") (u "not an ip") s0 eq_refl eq_refl _ _ eq_refl);
    intros H; vm_compute in H; discriminate H.
Defined.

(** The artifact is named after the [query] the provider answers with:
    here the looked-up text and the answer differ, and one and the same
    looked-up text gets two names from two answers. *)
Lemma map_name_follows_response :
  let ip := VStr (u "008.8.8.8") in
  let E1 := sample_env (Raise timed_out)
                       (Ret (geo_response "8.8.8.8" 37 (-122))) reliable in
  let E2 := sample_env (Raise timed_out)
                       (Ret (geo_response "8.8.4.4" 37 (-122))) reliable in
  is_valid_ip 4300 (u "008.8.8.8") = Ret true
  /\ (exists data s',
         get_ip_info E1 ip s0
         = (Ret (Some data, VStr (u "ip_map_8.8.8.8.html")), s'))
  /\ (exists data s',
         get_ip_info E2 ip s0
         = (Ret (Some data, VStr (u "ip_map_8.8.4.4.html")), s'))
  /\ str_eqb (u "ip_map_8.8.8.8.html") (u "ip_map_008.8.8.8.html") = false
  /\ str_eqb (u "ip_map_8.8.8.8.html") (u "ip_map_8.8.4.4.html") = false.
Proof.
  cbv zeta. repeat split; try reflexivity; eexists; eexists; reflexivity.
Qed.

(** The provider echoes the looked-up address. *)
Lemma map_filename_from_query_witness :
  let E := sample_env (Raise timed_out)
                      (Ret (geo_response "8.8.8.8" 37 (-122))) reliable in
  exists d q,
    requests_get_json E (geo_url E (VStr (u "8.8.8.8"))) 10 = Ret (VDict d)
    /\ dict_get d (u "query") = Some q
    /\ u "ip_map_8.8.8.8.html" = u "ip_map_" ++ format E q ++ u ".html"
    /\ (q = VStr (u "8.8.8.8")
        -> u "ip_map_8.8.8.8.html"
           = u "ip_map_" ++ format E (VStr (u "8.8.8.8")) ++ u ".html").
Proof.
  cbv zeta.
  eapply (map_filename_from_query
            (sample_env (Raise timed_out)
                        (Ret (geo_response "8.8.8.8" 37 (-122))) reliable)
            (VStr (u "8.8.8.8")) s0).
  reflexivity.
Defined.

(** * Further properties of the lookup client *)

Section LookupEffects.

Variable E : env.

(** Every run of [get_ip_info]: one request, and a file on disk exactly
    when its name comes back next to a record. *)
Lemma get_ip_info_run (ip : value) (s s' : state)
      (r : pyresult (option dict * value)) :
  get_ip_info E ip s = (r, s') ->
  trace s' = trace s ++ [HttpGet (geo_url E ip) 10]
  /\ ((exists v, r = Ret (None, v) /\ disk s' = disk s)
      \/ (exists data, r = Ret (Some data, VNone) /\ disk s' = disk s)
      \/ (exists data q,
             r = Ret (Some data, VStr (map_name E q))
             /\ disk s' = map_name E q :: disk s)).
Proof.
  unfold_lookup. cbn [handle fst snd trace disk]. run_lookup.
  all: intros H; inversion H; subst; cbn [trace disk].
  all: split; [reflexivity|].
  all: first [ left; eexists; split; reflexivity
             | right; left; eexists; split; reflexivity
             | right; right; eexists; eexists; split; reflexivity ].
Qed.

(** X1: whatever the provider answers and whatever fails, [get_ip_info]
    sends exactly one request, to the provider's URL for the looked-up
    value with a timeout of 10, never a second one; and it leaves a new
    file on disk only when it returns that file's name next to a
    record. *)
Theorem get_ip_info_effects (ip : value) (s : state) :
  trace (snd (get_ip_info E ip s))
  = trace s ++ [HttpGet (geo_url E ip) 10]
  /\ (disk (snd (get_ip_info E ip s)) = disk s
      \/ exists data path,
           fst (get_ip_info E ip s) = Ret (Some data, VStr path)
           /\ disk (snd (get_ip_info E ip s)) = path :: disk s).
Proof.
  destruct (get_ip_info E ip s) as [r s'] eqn:Hrun. cbn [fst snd].
  destruct (get_ip_info_run ip s s' r Hrun)
    as [Htr [(v & _ & Hd)|[(data & _ & Hd)|(data & q & -> & Hd)]]].
  - split; [exact Htr | now left].
  - split; [exact Htr | now left].
  - split; [exact Htr | right; eauto].
Qed.

(** X2: a successful response with both coordinates true as objects but
    no [query] key is not given a record at all: the record itself is
    built with [get], but the file name reads [response['query']], the
    [KeyError] lands in the generic handler, and no file is written. *)
Theorem missing_query_is_an_error (ip : value) (s : state) (d : dict) :
  requests_get_json E (geo_url E ip) 10 = Ret (VDict d) ->
  eq_str (field d "status") (u "fail") = false ->
  truthy (field d "lat") = true ->
  truthy (field d "lon") = true ->
  folium_Map E (field d "lat") (field d "lon") 12 = None ->
  folium_Marker E (field d "lat") (field d "lon")
                (match dict_get d (u "city") with
                 | Some c => c
                 | None => VStr (u "Unknown location")
                 end) = None ->
  dict_get d (u "query") = None ->
  get_ip_info E ip s
  = (Ret (None, VStr (u "Произошла ошибка: 'query'")),
     logged s [HttpGet (geo_url E ip) 10]).
Proof.
  unfold field. intros Hreq Hst Hlat Hlon HMap HMarker Hq. unfold_lookup.
  cbn [handle fst snd trace disk]. rewrite Hreq, Hst, Hlat, Hlon.
  destruct (dict_get d (u "lat")) as [lat|]; [|discriminate].
  destruct (dict_get d (u "lon")) as [lon|]; [|discriminate].
  rewrite HMap, HMarker, Hq. reflexivity.
Qed.

(** X3: a body that is JSON but not an object ([null], a number, a
    string, a list) is answered with the generic error naming the
    missing [get] attribute of its type; no record, no file. *)
Theorem non_object_response (ip : value) (s : state) (v : value) :
  requests_get_json E (geo_url E ip) 10 = Ret v ->
  (forall d, v <> VDict d) ->
  get_ip_info E ip s
  = (Ret (None,
          VStr (u "Произошла ошибка: " ++ u "'" ++ type_name v
                  ++ u "' object has no attribute 'get'")),
     logged s [HttpGet (geo_url E ip) 10]).
Proof.
  intros Hreq Hv. unfold_lookup. cbn [handle fst snd trace disk].
  rewrite Hreq. destruct v; try reflexivity. now elim (Hv d).
Qed.

(** X4: a returned record always has the same eight labels in the same
    order, each holding the response's field of that name, and [None]
    where the response has no such field; a missing field is never an
    error. *)
Theorem record_fields (ip : value) (s s' : state) (data : dict) (v : value) :
  get_ip_info E ip s = (Ret (Some data, v), s') ->
  exists d,
    requests_get_json E (geo_url E ip) 10 = Ret (VDict d)
    /\ data = [ (u "IP", field d "query");
                (u "Интернет провайдер", field d "isp");
                (u "Страна", field d "country");
                (u "Регион", field d "regionName");
                (u "Город", field d "city");
                (u "Индекс", field d "zip");
                (u "Широта", field d "lat");
                (u "Долгота", field d "lon") ].
Proof.
  unfold field. unfold_lookup. cbn [handle fst snd trace disk]. run_lookup.
  all: intros H; inversion H; subst.
  all: eexists; split; [reflexivity|].
  all: repeat match goal with
              | Hd : dict_get _ _ = _ |- _ => rewrite Hd; clear Hd
              end; reflexivity.
Qed.

End LookupEffects.

(** * Further properties of the handlers *)

Section HandlerEffects.

Variable E : env.

Lemma send_disk (ev : event) (s : state) : disk (snd (send E ev s)) = disk s.
Proof. now rewrite send_run. Qed.

Lemma filter_cons_self (path : pystr) (l : list pystr) :
  filter (fun p => negb (str_eqb path p)) (path :: l)
  = filter (fun p => negb (str_eqb path p)) l.
Proof. cbn [filter]. now rewrite str_eqb_refl. Qed.

(** Every run of [process_ip_request] after a typing indicator that went
    through. *)
Lemma process_ip_request_run (m : Message) (ip : value) (s : state) :
  transport E (trace s) (SendChatAction (chat m) (u "typing")) = None ->
  exists r text evs s',
    process_ip_request E m ip s = (r, s')
    /\ trace s' = trace s ++ [SendChatAction (chat m) (u "typing");
                              HttpGet (geo_url E ip) 10;
                              Answer (chat m) text NoMarkup] ++ evs
    /\ (evs = [] \/ exists path,
                      evs = [AnswerDocument (chat m) path map_caption])
    /\ incl (disk s') (disk s).
Proof.
  intros Ht.
  assert (Htyping : send_chat_action E (chat m) (u "typing") s
                    = (Ret tt, logged s [SendChatAction (chat m) (u "typing")])).
  { unfold send_chat_action. now rewrite send_run, Ht. }
  destruct (get_ip_info E ip (logged s [SendChatAction (chat m) (u "typing")]))
    as [r1 s1] eqn:Hinfo.
  destruct (get_ip_info_run E _ _ _ _ Hinfo)
    as [Htr [(v & -> & Hd)|[(data & -> & Hd)|(data & q & -> & Hd)]]];
    cbn [logged trace disk] in Htr, Hd;
    unfold process_ip_request; unfold bind at 1; rewrite Htyping;
    unfold bind at 1; rewrite Hinfo.
  - unfold answer. rewrite send_run.
    eexists _, _, [], _. split; [reflexivity|]. cbn [logged trace disk].
    rewrite Htr, Hd, <- !app_assoc. repeat split; auto using incl_refl.
  - cbn [truthy]. unfold answer. rewrite send_run.
    eexists _, _, [], _. split; [reflexivity|]. cbn [logged trace disk].
    rewrite Htr, Hd, <- !app_assoc. repeat split; auto using incl_refl.
  - rewrite map_name_truthy.
    destruct (reply_with_map E m (info_text E data) (map_name E q) s1)
      as (r & evs & Hrun & Hevs & _).
    rewrite (try_finally_cleanup _ _ _ _ _ Hrun).
    eexists _, _, evs, _. split; [reflexivity|]. cbn [logged trace disk].
    rewrite Htr, Hd, <- !app_assoc, filter_cons_self.
    repeat split.
    + destruct Hevs as [->| ->]; [now left | right; eauto].
    + apply incl_filter.
Qed.

(** X5: a lookup is never left without an answer.  If the typing
    indicator cannot be sent, nothing else happens, in particular no
    request; otherwise the calls are the indicator, one request to the
    provider, one text message, and at most one attachment after it,
    whatever fails along the way. *)
Theorem every_lookup_is_answered (m : Message) (ip : value) (s : state) :
  (forall e,
      transport E (trace s) (SendChatAction (chat m) (u "typing")) = Some e ->
      process_ip_request E m ip s
      = (Raise e, logged s [SendChatAction (chat m) (u "typing")]))
  /\ (transport E (trace s) (SendChatAction (chat m) (u "typing")) = None ->
      exists text evs,
        trace (snd (process_ip_request E m ip s))
        = trace s ++ [SendChatAction (chat m) (u "typing");
                      HttpGet (geo_url E ip) 10;
                      Answer (chat m) text NoMarkup] ++ evs
        /\ (evs = [] \/ exists path,
                          evs = [AnswerDocument (chat m) path map_caption])).
Proof.
  split.
  - intros e Ht. unfold process_ip_request, send_chat_action.
    unfold bind at 1. now rewrite send_run, Ht.
  - intros Ht.
    destruct (process_ip_request_run m ip s Ht)
      as (r & text & evs & s' & Hrun & Htr & Hevs & _).
    exists text, evs. now rewrite Hrun.
Qed.

Lemma process_ip_request_disk (m : Message) (ip : value) (s : state) :
  incl (disk (snd (process_ip_request E m ip s))) (disk s).
Proof.
  destruct (transport E (trace s) (SendChatAction (chat m) (u "typing")))
    as [e|] eqn:Ht.
  - unfold process_ip_request, send_chat_action. unfold bind at 1.
    rewrite send_run, Ht. apply incl_refl.
  - destruct (process_ip_request_run m ip s Ht)
      as (r & text & evs & s' & Hrun & _ & _ & Hd).
    now rewrite Hrun.
Qed.

Lemma cmd_my_ip_disk (m : Message) (s : state) :
  incl (disk (snd (cmd_my_ip E m s))) (disk s).
Proof.
  assert (Hh : forall (r : pyresult unit) s1,
             incl (disk s1) (disk s) ->
             incl (disk (snd (match r with
                              | Raise e =>
                                handle [(is_RequestException,
                                         fun _ => answer E m manual_entry_text
                                                         NoMarkup)] e s1
                              | Ret a => (Ret a, s1)
                              end))) (disk s)).
  { intros [[]|e] s1 H; [exact H|]. cbn [handle].
    destruct (is_RequestException (exn_cls e)); [|exact H].
    unfold answer. now rewrite send_disk. }
  unfold cmd_my_ip, try_except, requests_get, lift, emit, get.
  unfold bind at 1 2 3.
  destruct (requests_get_json E ipify_url 5) as [v|e].
  - destruct v; try (apply (Hh (Raise _)); apply incl_refl).
    destruct (truthy _).
    + destruct (process_ip_request E m _ _) as [r s1] eqn:Hrun.
      apply (Hh r s1).
      pose proof (process_ip_request_disk m
                    (match dict_get d (u "ip") with
                     | Some v => v
                     | None => VNone
                     end)
                    {| trace := trace s ++ [HttpGet ipify_url 5];
                       disk := disk s |}) as Hd.
      now rewrite Hrun in Hd.
    + destruct (answer E m undetermined_text NoMarkup _) as [r s1] eqn:Hrun.
      apply (Hh r s1).
      pose proof (send_disk (Answer (chat m) undetermined_text NoMarkup)
                            {| trace := trace s ++ [HttpGet ipify_url 5];
                               disk := disk s |}) as Hd.
      unfold answer in Hrun. rewrite Hrun in Hd. cbn [snd disk] in Hd.
      rewrite Hd. apply incl_refl.
  - apply (Hh (Raise e)). apply incl_refl.
Qed.

(** X6: no handler leaves a file behind: after any message, answered by
    any world, every file on disk was there before. *)
Theorem handlers_leave_no_file (m : Message) (s : state) :
  incl (disk (snd (dispatch E m s))) (disk s).
Proof.
  unfold dispatch.
  destruct (command_start E m);
    [unfold cmd_start, answer; rewrite send_disk; apply incl_refl|].
  destruct (filter_help E m);
    [unfold cmd_help, answer; rewrite send_disk; apply incl_refl|].
  destruct (filter_my_ip E m); [apply cmd_my_ip_disk|].
  unfold bind, lift. destruct (filter_ip E m) as [[]|e];
    try apply incl_refl.
  unfold process_ip. destruct (text m); [|apply incl_refl].
  apply process_ip_request_disk.
Qed.

End HandlerEffects.

(** * Further properties: failures and routing *)

Section Replies.

Variable E : env.

Lemma get_ip_info_provider_failure (ip : value) (s : state) (d : dict) :
  requests_get_json E (geo_url E ip) 10 = Ret (VDict d) ->
  dict_get d (u "status") = Some (VStr (u "fail")) ->
  get_ip_info E ip s
  = (Ret (None, match dict_get d (u "message") with
                | Some m => m
                | None => VStr (u "Unknown error")
                end),
     logged s [HttpGet (geo_url E ip) 10]).
Proof.
  intros Hreq Hst. unfold_lookup. cbn [handle fst snd trace disk].
  rewrite Hreq, Hst. cbn [eq_str]. now rewrite str_eqb_refl.
Qed.

Lemma get_ip_info_exception (ip : value) (s : state) (e : exn) :
  requests_get_json E (geo_url E ip) 10 = Raise e ->
  get_ip_info E ip s
  = (Ret (None,
          VStr ((if is_RequestException (exn_cls e)
                 then u "Ошибка сети: " else u "Произошла ошибка: ")
                  ++ exn_str e)),
     logged s [HttpGet (geo_url E ip) 10]).
Proof.
  intros Hreq. unfold_lookup. cbn [handle fst snd trace disk].
  rewrite Hreq. cbn [handle any_exception].
  now destruct (is_RequestException (exn_cls e)).
Qed.

Lemma process_ip_request_no_record (m : Message) (ip : value) (s s1 : state)
      (v : value) :
  transport E (trace s) (SendChatAction (chat m) (u "typing")) = None ->
  get_ip_info E ip (logged s [SendChatAction (chat m) (u "typing")])
  = (Ret (None, v), s1) ->
  snd (process_ip_request E m ip s)
  = logged s1 [Answer (chat m) (u "❌ " ++ format E v) NoMarkup].
Proof.
  intros Ht Hinfo. unfold process_ip_request, send_chat_action.
  unfold bind at 1. rewrite send_run, Ht. unfold bind at 1. rewrite Hinfo.
  unfold answer. now rewrite send_run.
Qed.

(** X7: a lookup that fails is answered by one message and nothing
    else: the cross mark followed by the provider's [message] as [str]
    prints it ([Unknown error] when the key is missing, [None] when it is
    [null]), or by the wrapped text of the exception, [Ошибка сети] for a
    [RequestException] and [Произошла ошибка] for any other; no
    attachment is sent and the disk is as before. *)
Theorem failed_lookup_reply (m : Message) (ip : value) (s : state) :
  transport E (trace s) (SendChatAction (chat m) (u "typing")) = None ->
  (forall d,
      requests_get_json E (geo_url E ip) 10 = Ret (VDict d) ->
      dict_get d (u "status") = Some (VStr (u "fail")) ->
      snd (process_ip_request E m ip s)
      = logged s [SendChatAction (chat m) (u "typing");
                  HttpGet (geo_url E ip) 10;
                  Answer (chat m)
                         (u "❌ " ++ format E
                                       match dict_get d (u "message") with
                                       | Some x => x
                                       | None => VStr (u "Unknown error")
                                       end) NoMarkup])
  /\ (forall e,
         requests_get_json E (geo_url E ip) 10 = Raise e ->
         snd (process_ip_request E m ip s)
         = logged s [SendChatAction (chat m) (u "typing");
                     HttpGet (geo_url E ip) 10;
                     Answer (chat m)
                            (u "❌ "
                               ++ (if is_RequestException (exn_cls e)
                                   then u "Ошибка сети: "
                                   else u "Произошла ошибка: ")
                               ++ exn_str e) NoMarkup]).
Proof.
  intros Ht. split.
  - intros d Hreq Hst.
    rewrite (process_ip_request_no_record m ip s _ _ Ht
               (get_ip_info_provider_failure ip _ d Hreq Hst)).
    now rewrite !logged_logged.
  - intros e Hreq.
    rewrite (process_ip_request_no_record m ip s _ _ Ht
               (get_ip_info_exception ip _ e Hreq)).
    now rewrite !logged_logged.
Qed.

(** X8: [cmd_my_ip] catches [RequestException] only.  When the
    resolver's body is JSON but not an object, or its call raises
    anything else, the exception leaves the handler and the user gets no
    message at all. *)
Theorem cmd_my_ip_uncaught (m : Message) (s : state) :
  (forall v,
      requests_get_json E ipify_url 5 = Ret v ->
      (forall d, v <> VDict d) ->
      cmd_my_ip E m s
      = (Raise (no_attribute v (u "get")), logged s [HttpGet ipify_url 5]))
  /\ (forall e,
         requests_get_json E ipify_url 5 = Raise e ->
         is_RequestException (exn_cls e) = false ->
         cmd_my_ip E m s = (Raise e, logged s [HttpGet ipify_url 5])).
Proof.
  split.
  - intros v Hreq Hv.
    unfold cmd_my_ip, try_except, requests_get, lift, emit, get.
    unfold bind at 1 2 3. rewrite Hreq.
    destruct v; try reflexivity. now elim (Hv d).
  - intros e Hreq He.
    unfold cmd_my_ip, try_except, requests_get, lift, emit, get.
    unfold bind at 1 2 3. rewrite Hreq. cbn [handle]. now rewrite He.
Qed.

Lemma is_valid_ip_empty (n : nat) : is_valid_ip n [] = Ret false.
Proof. reflexivity. Qed.

(** X9: a text that passes the validator, and that none of the earlier
    filters takes, is looked up with its surrounding white space
    removed, and with nothing else changed. *)
Theorem valid_ip_is_looked_up (m : Message) (t : pystr) :
  text m = Some t ->
  command_start E m = false ->
  lower E t <> u "помощь" ->
  lower E t <> u "мой ip" ->
  is_valid_ip (max_str_digits E) t = Ret true ->
  dispatch E m = process_ip_request E m (VStr (Py.strip t)).
Proof.
  intros Ht Hc Hh Hm Hv.
  assert (Hne : truthy (VStr t) = true).
  { destruct t; [|reflexivity]. rewrite is_valid_ip_empty in Hv.
    discriminate. }
  unfold dispatch, filter_help, filter_my_ip, filter_ip, process_ip.
  rewrite Hc, Ht, (str_eqb_neq _ _ Hh), (str_eqb_neq _ _ Hm), !andb_false_r.
  rewrite Hne, Hv. reflexivity.
Qed.

(** X10: a text that lower-cases to the help label is answered by the
    usage text with the custom keyboard removed, and by nothing else: no
    request is made, even when the same text would pass a later
    filter. *)
Theorem help_reply (m : Message) (t : pystr) (s : state) :
  text m = Some t -> t <> [] ->
  lower E t = u "помощь" ->
  command_start E m = false ->
  snd (dispatch E m s)
  = logged s [Answer (chat m) help_text ReplyKeyboardRemove].
Proof.
  intros Ht Hne Hl Hc. unfold dispatch, filter_help.
  rewrite Hc, Ht, Hl, (text_truthy t Hne), str_eqb_refl. cbn [andb].
  unfold cmd_help, answer. now rewrite send_run.
Qed.

(** X11: the start command goes first, whatever else the text would
    match: the greeting is sent with a keyboard of two buttons, and each
    button's label, sent back as a text that [str.lower] maps to the
    handler's literal, reaches that button's handler. *)
Theorem start_menu (s : state) :
  (forall m,
      command_start E m = true ->
      snd (dispatch E m s)
      = logged s [Answer (chat m) start_text
                         (ReplyKeyboard [u "Мой IP"; u "Помощь"] true
                                        (u "Выберите действие..."))])
  /\ (forall m,
         text m = Some (u "Мой IP") ->
         lower E (u "Мой IP") = u "мой ip" ->
         command_start E m = false ->
         dispatch E m = cmd_my_ip E m)
  /\ (forall m,
         text m = Some (u "Помощь") ->
         lower E (u "Помощь") = u "помощь" ->
         command_start E m = false ->
         dispatch E m = cmd_help E m).
Proof.
  split; [|split].
  - intros m Hc. unfold dispatch. rewrite Hc.
    unfold cmd_start, answer. now rewrite send_run.
  - intros m Ht Hl Hc. apply (dispatch_my_ip E m (u "Мой IP")); auto.
    discriminate.
  - intros m Ht Hl Hc. unfold dispatch, filter_help.
    now rewrite Hc, Ht, Hl.
Qed.

End Replies.

(** * Further properties of the validator and of the reply text *)

Section ValidatorMore.

Variable n : nat.

(** [sys.set_int_max_str_digits] takes 0 or a limit of at least 640, so
    a limit never applies to three digits. *)
Hypothesis limit_ok : (n = 0 \/ 3 <= n)%nat.

Lemma skip_spaces_length (l : list Py.tok) :
  (List.length (Py.skip_spaces l) <= List.length l)%nat.
Proof.
  induction l as [|t l IH]; [apply Nat.le_refl|].
  destruct t; cbn [Py.skip_spaces List.length]; lia.
Qed.

Lemma scan_digits_count (l : list Py.tok) :
  forall pu v k v' k' rest,
    Py.scan_digits pu v k l = Some (v', k', rest) ->
    (k' <= k + List.length l)%nat.
Proof.
  induction l as [|t l IH]; intros pu v k v' k' rest; cbn [Py.scan_digits].
  - destruct pu; intros H; inversion H; subst. cbn. lia.
  - destruct t; try (destruct pu; intros H; inversion H; subst; cbn; lia).
    + intros H. apply IH in H. cbn [List.length]. lia.
    + destruct pu; [discriminate|]. intros H. apply IH in H.
      cbn [List.length]. lia.
Qed.

(** On a short string the digit limit plays no part. *)
Lemma int_short (p : pystr) :
  (List.length p <= 3)%nat -> Py.int n p = Py.int 0 p.
Proof.
  intros Hp. unfold Py.int.
  pose proof (skip_spaces_length (map Py.classify p)) as Hs.
  rewrite length_map in Hs.
  set (l1 := Py.skip_spaces (map Py.classify p)) in *.
  repeat (run_step; cbn [negb andb Nat.eqb Nat.ltb Nat.leb]);
    try reflexivity.
  all: match goal with
       | H : Py.scan_digits _ _ _ _ = Some _ |- _ =>
         apply scan_digits_count in H; cbn [List.length] in *
       end.
  all: match goal with
       | H : negb (Nat.eqb n 0) && _ = true |- _ =>
         apply andb_true_iff in H; destruct H as [H0 H1];
           apply negb_true_iff, Nat.eqb_neq in H0;
           apply Nat.ltb_lt in H1
       end.
  all: destruct limit_ok; lia.
Qed.

Lemma octet_cases (k : Z) :
  0 <= k <= 255 -> In k (map Z.of_nat (seq 0 256)).
Proof.
  intros Hk. apply in_map_iff. exists (Z.to_nat k). split; [lia|].
  apply in_seq. lia.
Qed.

Lemma decimal_octet (k : Z) :
  0 <= k <= 255 ->
  (List.length (decimal k) <= 3)%nat
  /\ ~ In dot (decimal k)
  /\ Py.int 0 (decimal k) = Ret k.
Proof.
  intros Hk. apply octet_cases in Hk. revert k Hk. apply Forall_forall.
  assert (Hall : forallb
                   (fun k => Nat.leb (List.length (decimal k)) 3
                             && negb (existsb (N.eqb dot) (decimal k))
                             && match Py.int 0 (decimal k) with
                                | Ret v => v =? k
                                | Raise _ => false
                                end)
                   (map Z.of_nat (seq 0 256)) = true)
    by (vm_compute; reflexivity).
  rewrite forallb_forall in Hall. apply Forall_forall. intros k Hk.
  specialize (Hall k Hk). apply andb_true_iff in Hall.
  destruct Hall as [Hall Hint]. apply andb_true_iff in Hall.
  destruct Hall as [Hlen Hdot]. repeat split.
  - now apply Nat.leb_le.
  - intros Hin. apply negb_true_iff in Hdot.
    assert (existsb (N.eqb dot) (decimal k) = true); [|congruence].
    apply existsb_exists. exists dot. split; [assumption | apply N.eqb_refl].
  - destruct (Py.int 0 (decimal k)) as [v|]; [|discriminate].
    apply Z.eqb_eq in Hint. now subst.
Qed.

Lemma decimal_segment (k : Z) : 0 <= k <= 255 -> segment_ok n (decimal k).
Proof.
  intros Hk. destruct (decimal_octet k Hk) as (Hlen & Hdot & Hint).
  split; [assumption|]. exists k. split; [|assumption].
  now rewrite int_short.
Qed.

(** X12: every address in canonical form passes the validator: four
    numbers between 0 and 255 written in decimal and joined by dots. *)
Theorem dotted_quad_is_valid (a b c d : Z) :
  0 <= a <= 255 -> 0 <= b <= 255 -> 0 <= c <= 255 -> 0 <= d <= 255 ->
  is_valid_ip n (dotted_quad a b c d) = Ret true.
Proof.
  intros Ha Hb Hc Hd. apply is_valid_ip_true.
  exists (decimal a), (decimal b), (decimal c), (decimal d).
  repeat split; try (now apply decimal_segment).
Qed.

End ValidatorMore.

(** * The validator and [strip] *)

Lemma skip_spaces_app_nil (l : list Py.tok) (x : Py.tok) :
  Py.skip_spaces l = [] -> Py.skip_spaces (l ++ [x]) = Py.skip_spaces [x].
Proof.
  induction l as [|t l IH]; [reflexivity|].
  destruct t; cbn [Py.skip_spaces app]; try discriminate. exact IH.
Qed.

Lemma skip_spaces_app_cons (l : list Py.tok) (x : Py.tok) :
  Py.skip_spaces l <> [] ->
  Py.skip_spaces (l ++ [x]) = Py.skip_spaces l ++ [x].
Proof.
  induction l as [|t l IH]; [now intros []|].
  destruct t; cbn [Py.skip_spaces app]; try reflexivity. exact IH.
Qed.

Lemma scan_digits_app (x : Py.tok) (l : list Py.tok) :
  x = Py.TSpace \/ x = Py.TOther ->
  forall pu v k,
    Py.scan_digits pu v k (l ++ [x])
    = match Py.scan_digits pu v k l with
      | Some (v', k', rest) => Some (v', k', rest ++ [x])
      | None => None
      end.
Proof.
  intros Hx. induction l as [|t l IH]; intros pu v k.
  - destruct Hx as [-> | ->]; now destruct pu.
  - destruct t; cbn [Py.scan_digits app]; now destruct pu.
Qed.

Section StripFacts.

Variable n : nat.

(** A trailing blank changes nothing for [int]; a trailing character it
    cannot read makes it fail. *)
Lemma int_app_space (r : pystr) (c : N) :
  Py.classify c = Py.TSpace -> Py.int n (r ++ [c]) = Py.int n r.
Proof.
  intros Hc. unfold Py.int. rewrite map_app. cbn [map]. rewrite Hc.
  generalize (map Py.classify r). intros l.
  destruct (Py.skip_spaces l) as [|t l1] eqn:Hl.
  - rewrite (skip_spaces_app_nil l _ Hl). reflexivity.
  - rewrite (skip_spaces_app_cons l), Hl by (rewrite Hl; discriminate).
    assert (Hgo : forall sign l2,
      match l2 ++ [Py.TSpace] with
      | Py.TUnder :: _ => Raise Py.invalid_literal
      | _ => match Py.scan_digits false 0 0 (l2 ++ [Py.TSpace]) with
             | Some (v, k, rest) =>
               if Nat.eqb k 0 then Raise Py.invalid_literal
               else if negb (Nat.eqb n 0) && Nat.ltb n k
                    then Raise Py.invalid_literal
                    else match Py.skip_spaces rest with
                         | [] => Ret (sign * v)
                         | _ :: _ => Raise Py.invalid_literal
                         end
             | None => Raise Py.invalid_literal
             end
      end =
      match l2 with
      | Py.TUnder :: _ => Raise Py.invalid_literal
      | _ => match Py.scan_digits false 0 0 l2 with
             | Some (v, k, rest) =>
               if Nat.eqb k 0 then Raise Py.invalid_literal
               else if negb (Nat.eqb n 0) && Nat.ltb n k
                    then Raise Py.invalid_literal
                    else match Py.skip_spaces rest with
                         | [] => Ret (sign * v)
                         | _ :: _ => Raise Py.invalid_literal
                         end
             | None => Raise Py.invalid_literal
             end
      end).
    { intros sign l2. rewrite scan_digits_app by now left.
      destruct (Py.scan_digits false 0 0 l2) as [[[v k] rest]|] eqn:Hs.
      - assert (Hr : match Py.skip_spaces (rest ++ [Py.TSpace]) with
                     | [] => Ret (sign * v)
                     | _ :: _ => Raise Py.invalid_literal
                     end
                     = match Py.skip_spaces rest with
                       | [] => Ret (sign * v)
                       | _ :: _ => Raise Py.invalid_literal
                       end).
        { destruct (Py.skip_spaces rest) eqn:Hrest.
          - now rewrite (skip_spaces_app_nil rest _ Hrest).
          - rewrite skip_spaces_app_cons, Hrest
              by (rewrite Hrest; discriminate).
            reflexivity. }
        rewrite Hr. destruct l2 as [|[] ?]; reflexivity.
      - destruct l2 as [|[] ?]; reflexivity. }
    destruct t; cbn [app]; try reflexivity;
      first [ exact (Hgo 1 l1) | exact (Hgo (-1) l1)
            | exact (Hgo 1 (Py.TSpace :: l1))
            | exact (Hgo 1 (Py.TDigit d :: l1))
            | exact (Hgo 1 (Py.TOther :: l1)) ].
Qed.

Lemma int_cons_space (r : pystr) (c : N) :
  Py.classify c = Py.TSpace -> Py.int n (c :: r) = Py.int n r.
Proof. intros Hc. unfold Py.int. cbn [map]. now rewrite Hc. Qed.

Lemma int_cons_other (r : pystr) (c : N) :
  Py.classify c = Py.TOther -> Py.int n (c :: r) = Raise Py.invalid_literal.
Proof. intros Hc. unfold Py.int. cbn [map]. now rewrite Hc. Qed.

Lemma skip_spaces_other (l : list Py.tok) :
  Py.skip_spaces (l ++ [Py.TOther]) <> [].
Proof.
  induction l as [|t l IH]; [discriminate|].
  destruct t; cbn [Py.skip_spaces app]; try discriminate. exact IH.
Qed.

Lemma int_app_other (r : pystr) (c : N) :
  Py.classify c = Py.TOther -> Py.int n (r ++ [c]) = Raise Py.invalid_literal.
Proof.
  intros Hc. unfold Py.int. rewrite map_app. cbn [map]. rewrite Hc.
  generalize (map Py.classify r). intros l.
  assert (Hgo : forall sign l2,
      match l2 ++ [Py.TOther] with
      | Py.TUnder :: _ => Raise Py.invalid_literal
      | _ => match Py.scan_digits false 0 0 (l2 ++ [Py.TOther]) with
             | Some (v, k, rest) =>
               if Nat.eqb k 0 then Raise Py.invalid_literal
               else if negb (Nat.eqb n 0) && Nat.ltb n k
                    then Raise Py.invalid_literal
                    else match Py.skip_spaces rest with
                         | [] => Ret (sign * v)
                         | _ :: _ => Raise Py.invalid_literal
                         end
             | None => Raise Py.invalid_literal
             end
      end = @Raise Z Py.invalid_literal).
  { intros sign l2. rewrite scan_digits_app by now right.
    destruct (Py.scan_digits false 0 0 l2) as [[[v k] rest]|] eqn:Hs.
    - pose proof (skip_spaces_other rest) as Hr.
      destruct (Py.skip_spaces (rest ++ [Py.TOther])); [now elim Hr|].
      destruct (l2 ++ [Py.TOther]) as [|[] ?]; try reflexivity;
        destruct (Nat.eqb k 0); try reflexivity;
        destruct (negb (Nat.eqb n 0) && Nat.ltb n k); reflexivity.
    - destruct (l2 ++ [Py.TOther]) as [|[] ?]; reflexivity. }
  destruct (Py.skip_spaces l) as [|t l1] eqn:Hl.
  - rewrite (skip_spaces_app_nil l _ Hl). reflexivity.
  - rewrite (skip_spaces_app_cons l), Hl by (rewrite Hl; discriminate).
    destruct t; cbn [app]; try reflexivity;
      first [ exact (Hgo 1 l1) | exact (Hgo (-1) l1)
            | exact (Hgo 1 (Py.TSpace :: l1))
            | exact (Hgo 1 (Py.TDigit d :: l1))
            | exact (Hgo 1 (Py.TOther :: l1)) ].
Qed.

(** What [str.isspace] takes for white space is, for [int], a blank or
    (the four separators U+001C to U+001F) a character it cannot read. *)
Lemma isspace_classify (c : N) :
  Py.isspace c = true ->
  Py.classify c = Py.TSpace \/ Py.classify c = Py.TOther.
Proof.
  intros Hsp. destruct (c <? 127)%N eqn:Hlt.
  - assert (Hall : forallb
                     (fun c => implb (Py.isspace c)
                                     match Py.classify c with
                                     | Py.TSpace | Py.TOther => true
                                     | _ => false
                                     end)
                     (map N.of_nat (seq 0 127)) = true)
      by (vm_compute; reflexivity).
    rewrite forallb_forall in Hall.
    assert (Hin : In c (map N.of_nat (seq 0 127))).
    { apply in_map_iff. exists (N.to_nat c). apply N.ltb_lt in Hlt.
      split; [lia | apply in_seq; lia]. }
    specialize (Hall c Hin). rewrite Hsp in Hall. cbn [implb] in Hall.
    destruct (Py.classify c); try discriminate; auto.
  - left. unfold Py.classify. now rewrite Hlt, Hsp.
Qed.

Lemma int_nil : Py.int n [] = Raise Py.invalid_literal.
Proof. reflexivity. Qed.

Lemma int_lstrip (a : pystr) (k : Z) :
  Py.int n a = Ret k -> Py.int n (Py.lstrip a) = Ret k.
Proof.
  induction a as [|c r IH]; [discriminate|]. cbn [Py.lstrip].
  destruct (Py.isspace c) eqn:Hsp; [|trivial].
  destruct (isspace_classify c Hsp) as [Hc|Hc].
  - rewrite (int_cons_space r c Hc). exact IH.
  - rewrite (int_cons_other r c Hc). discriminate.
Qed.

Lemma lstrip_app (a r : pystr) :
  Py.lstrip a <> [] -> Py.lstrip (a ++ r) = Py.lstrip a ++ r.
Proof.
  induction a as [|c a IH]; [now intros []|]. cbn [Py.lstrip app].
  destruct (Py.isspace c); [exact IH | reflexivity].
Qed.

Lemma lstrip_in (x : N) (a : pystr) : In x (Py.lstrip a) -> In x a.
Proof.
  induction a as [|c a IH]; [trivial|]. cbn [Py.lstrip].
  destruct (Py.isspace c); [|trivial]. intros H. right. now apply IH.
Qed.

Lemma int_rstrip (d : pystr) (k : Z) :
  Py.int n d = Ret k -> Py.int n (rev (Py.lstrip (rev d))) = Ret k.
Proof.
  induction d as [|c r IH] using rev_ind; [discriminate|].
  rewrite rev_app_distr. cbn [rev app Py.lstrip].
  destruct (Py.isspace c) eqn:Hsp.
  - destruct (isspace_classify c Hsp) as [Hc|Hc].
    + rewrite (int_app_space r c Hc). exact IH.
    + rewrite (int_app_other r c Hc). discriminate.
  - cbn [rev]. now rewrite rev_involutive.
Qed.

Lemma rstrip_app (l d : pystr) :
  Py.lstrip (rev d) <> [] ->
  rev (Py.lstrip (rev (l ++ d))) = l ++ rev (Py.lstrip (rev d)).
Proof.
  intros Hd. rewrite rev_app_distr, lstrip_app by assumption.
  now rewrite rev_app_distr, rev_involutive.
Qed.

Lemma segment_lstrip (a : pystr) :
  segment_ok n a -> segment_ok n (Py.lstrip a) /\ Py.lstrip a <> [].
Proof.
  intros [Hdot (k & Hk & Hr)]. apply int_lstrip in Hk. split.
  - split; [intros H; apply Hdot; now apply lstrip_in in H|]. now exists k.
  - intros H. rewrite H, int_nil in Hk. discriminate.
Qed.

Lemma segment_rstrip (d : pystr) :
  segment_ok n d ->
  segment_ok n (rev (Py.lstrip (rev d))) /\ Py.lstrip (rev d) <> [].
Proof.
  intros [Hdot (k & Hk & Hr)]. apply int_rstrip in Hk. split.
  - split; [|now exists k]. intros H. apply Hdot.
    apply in_rev in H. apply lstrip_in in H. now apply in_rev.
  - intros H. rewrite H in Hk. cbn [rev] in Hk. rewrite int_nil in Hk.
    discriminate.
Qed.

(** X13: the text that [process_ip] looks up still passes the validator:
    [strip] takes from a valid text only blanks that [int] skips anyway,
    at the head of the first segment and at the tail of the last. *)
Theorem stripped_text_is_valid (t : pystr) :
  is_valid_ip n t = Ret true -> is_valid_ip n (Py.strip t) = Ret true.
Proof.
  rewrite !is_valid_ip_true.
  intros (a & b & c & d & -> & Ha & Hb & Hc & Hd).
  destruct (segment_lstrip a Ha) as [Ha' Hane].
  destruct (segment_rstrip d Hd) as [Hd' Hdne].
  exists (Py.lstrip a), b, c, (rev (Py.lstrip (rev d))).
  refine (conj _ (conj Ha' (conj Hb (conj Hc Hd')))).
  unfold Py.strip. rewrite lstrip_app by assumption.
  change (Py.lstrip a ++ dot :: b ++ dot :: c ++ dot :: d)
    with (Py.lstrip a ++ (dot :: b) ++ (dot :: c) ++ [dot] ++ d).
  rewrite !app_assoc, rstrip_app by assumption.
  now rewrite <- !app_assoc.
Qed.

End StripFacts.


(** * The reply text *)

Section ReplyText.

Variable E : env.

Lemma join_contains (sep x : pystr) (l : list pystr) :
  In x l -> exists pre post, Py.join sep l = pre ++ x ++ post.
Proof.
  induction l as [|y l IH]; [intros []|]. intros [->|Hin].
  - destruct l as [|z l].
    + exists [], []. cbn [Py.join app]. now rewrite app_nil_r.
    + exists [], (sep ++ Py.join sep (z :: l)). reflexivity.
  - destruct (IH Hin) as (pre & post & Hj). destruct l as [|z l]; [easy|].
    exists (y ++ sep ++ pre), post.
    change (Py.join sep (y :: z :: l)) with (y ++ sep ++ Py.join sep (z :: l)).
    now rewrite Hj, <- !app_assoc.
Qed.

(** X14: every field of a record is in the reply text as one labelled
    line, its value printed as [str] prints it, so that a field the
    provider left out reads [None]. *)
Theorem info_text_lines (data : dict) (label : pystr) (v : value) :
  In (label, v) data ->
  exists pre post,
    info_text E data
    = pre ++ (u "<b>" ++ label ++ u ":</b> <code>" ++ format E v
                ++ u "</code>") ++ post.
Proof.
  intros Hin. unfold info_text.
  destruct (join_contains nl
              (u "<b>" ++ label ++ u ":</b> <code>" ++ format E v
                 ++ u "</code>")
              (map (fun kv => u "<b>" ++ fst kv ++ u ":</b> <code>"
                                ++ format E (snd kv) ++ u "</code>") data))
    as (pre & post & Hj).
  { apply in_map_iff. now exists (label, v). }
  exists (u "<b>🔍 Информация об IP:</b>" ++ nl ++ nl ++ pre), post.
  now rewrite Hj, <- !app_assoc.
Qed.

End ReplyText.

(** * The further properties on concrete worlds *)

Lemma missing_query_is_an_error_witness :
  get_ip_info (sample_env (Raise timed_out) (Ret geo_without_query) reliable)
              (VStr (u "8.8.8.8")) s0
  = (Ret (None, VStr (u "Произошла ошибка: 'query'")),
     logged s0 [HttpGet (u "http://ip-api.com/json/8.8.8.8") 10]).
Proof.
  exact (missing_query_is_an_error
           (sample_env (Raise timed_out) (Ret geo_without_query) reliable)
           (VStr (u "8.8.8.8")) s0
           [ (u "status", VStr (u "success"));
             (u "city", VStr (u "Mountain View"));
             (u "lat", VFloat 37);
             (u "lon", VFloat (-122)) ]
           eq_refl eq_refl eq_refl eq_refl eq_refl eq_refl eq_refl).
Defined.

(** The provider answers with the JSON literal [null]. *)
Lemma non_object_response_witness :
  get_ip_info (sample_env (Raise timed_out) (Ret VNone) reliable)
              (VStr (u "8.8.8.8")) s0
  = (Ret (None,
          VStr (u "Произошла ошибка: " ++ u "'" ++ u "NoneType"
                  ++ u "' object has no attribute 'get'")),
     logged s0 [HttpGet (geo_url (sample_env (Raise timed_out) (Ret VNone)
                                             reliable)
                                 (VStr (u "8.8.8.8"))) 10]).
Proof.
  refine (non_object_response
            (sample_env (Raise timed_out) (Ret VNone) reliable)
            (VStr (u "8.8.8.8")) s0 VNone eq_refl _).
  intros d H. discriminate H.
Defined.

Lemma record_fields_witness :
  exists d,
    requests_get_json
      (sample_env (Raise timed_out) (Ret geo_without_coordinates) reliable)
      (u "http://ip-api.com/json/8.8.8.8") 10 = Ret (VDict d)
    /\ [ (u "IP", VStr (u "8.8.8.8"));
         (u "Интернет провайдер", VNone);
         (u "Страна", VStr (u "United States"));
         (u "Регион", VNone);
         (u "Город", VNone);
         (u "Индекс", VNone);
         (u "Широта", VNone);
         (u "Долгота", VNone) ]
       = [ (u "IP", field d "query");
           (u "Интернет провайдер", field d "isp");
           (u "Страна", field d "country");
           (u "Регион", field d "regionName");
           (u "Город", field d "city");
           (u "Индекс", field d "zip");
           (u "Широта", field d "lat");
           (u "Долгота", field d "lon") ].
Proof.
  eapply (record_fields
            (sample_env (Raise timed_out) (Ret geo_without_coordinates)
                        reliable)
            (VStr (u "8.8.8.8")) s0).
  reflexivity.
Defined.

(** The typing indicator is refused: nothing is requested. *)
Lemma every_lookup_is_answered_witness :
  process_ip_request
    (sample_env (Raise timed_out) (Ret geo_failure)
                (fun _ _ => Some telegram_down))
    (msg "8.8.8.8") (VStr (u "8.8.8.8")) s0
  = (Raise telegram_down, logged s0 [SendChatAction 1 (u "typing")]).
Proof.
  exact (proj1 (every_lookup_is_answered
                  (sample_env (Raise timed_out) (Ret geo_failure)
                              (fun _ _ => Some telegram_down))
                  (msg "8.8.8.8") (VStr (u "8.8.8.8")) s0)
               telegram_down eq_refl).
Defined.

(** The provider reports failure with [message] set to [null]: the user
    reads the word [None]. *)
Lemma failed_lookup_reply_witness :
  snd (process_ip_request
         (sample_env (Raise timed_out)
                     (Ret (VDict [ (u "status", VStr (u "fail"));
                                   (u "message", VNone) ]))
                     reliable)
         (msg "8.8.8.8") (VStr (u "8.8.8.8")) s0)
  = logged s0 [ SendChatAction 1 (u "typing");
                HttpGet (u "http://ip-api.com/json/8.8.8.8") 10;
                Answer 1 (u "❌ " ++ u "None") NoMarkup ].
Proof.
  exact (proj1 (failed_lookup_reply
                  (sample_env (Raise timed_out)
                              (Ret (VDict [ (u "status", VStr (u "fail"));
                                            (u "message", VNone) ]))
                              reliable)
                  (msg "8.8.8.8") (VStr (u "8.8.8.8")) s0 eq_refl)
               [ (u "status", VStr (u "fail")); (u "message", VNone) ]
               eq_refl eq_refl).
Defined.

(** The resolver answers with a JSON list. *)
Lemma cmd_my_ip_uncaught_witness :
  cmd_my_ip (sample_env (Ret (VList [])) (Ret geo_failure) reliable)
            (msg "Мой IP") s0
  = (Raise (no_attribute (VList []) (u "get")),
     logged s0 [HttpGet ipify_url 5]).
Proof.
  refine (proj1 (cmd_my_ip_uncaught
                   (sample_env (Ret (VList [])) (Ret geo_failure) reliable)
                   (msg "Мой IP") s0)
                (VList []) eq_refl _).
  intros d H. discriminate H.
Defined.

Lemma valid_ip_is_looked_up_witness :
  dispatch (sample_env (Raise timed_out) (Ret geo_failure) reliable)
           (msg " 8.8.8.8 ")
  = process_ip_request
      (sample_env (Raise timed_out) (Ret geo_failure) reliable)
      (msg " 8.8.8.8 ") (VStr (u "8.8.8.8")).
Proof.
  refine (valid_ip_is_looked_up
            (sample_env (Raise timed_out) (Ret geo_failure) reliable)
            (msg " 8.8.8.8 ") (u " 8.8.8.8 ") eq_refl eq_refl _ _ eq_refl);
    intros H; vm_compute in H; discriminate H.
Defined.

Lemma help_reply_witness :
  snd (dispatch (sample_env (Raise timed_out) (Ret geo_failure) reliable)
                (msg "ПОМОЩЬ") s0)
  = logged s0 [Answer 1 help_text ReplyKeyboardRemove].
Proof.
  refine (help_reply
            (sample_env (Raise timed_out) (Ret geo_failure) reliable)
            (msg "ПОМОЩЬ") (u "ПОМОЩЬ") s0 eq_refl _ eq_refl eq_refl).
  discriminate.
Defined.

Lemma start_menu_witness :
  snd (dispatch (sample_env (Raise timed_out) (Ret geo_failure) reliable)
                (msg "/start") s0)
  = logged s0 [Answer 1 start_text
                      (ReplyKeyboard [u "Мой IP"; u "Помощь"] true
                                     (u "Выберите действие..."))]
  /\ dispatch (sample_env (Raise timed_out) (Ret geo_failure) reliable)
              (msg "Мой IP")
     = cmd_my_ip (sample_env (Raise timed_out) (Ret geo_failure) reliable)
                 (msg "Мой IP")
  /\ dispatch (sample_env (Raise timed_out) (Ret geo_failure) reliable)
              (msg "Помощь")
     = cmd_help (sample_env (Raise timed_out) (Ret geo_failure) reliable)
                (msg "Помощь").
Proof.
  destruct (start_menu
              (sample_env (Raise timed_out) (Ret geo_failure) reliable) s0)
    as (Hstart & Hmy & Hhelp).
  split; [|split].
  - exact (Hstart (msg "/start") eq_refl).
  - exact (Hmy (msg "Мой IP") eq_refl eq_refl eq_refl).
  - exact (Hhelp (msg "Помощь") eq_refl eq_refl eq_refl).
Defined.

Lemma dotted_quad_is_valid_witness :
  dotted_quad 192 168 0 1 = u "192.168.0.1"
  /\ is_valid_ip 4300 (dotted_quad 192 168 0 1) = Ret true.
Proof.
  split; [reflexivity|].
  apply (dotted_quad_is_valid 4300); [right|..]; lia.
Defined.

Lemma stripped_text_is_valid_witness :
  Py.strip (u "  8.8.8.8 ") = u "8.8.8.8"
  /\ is_valid_ip 4300 (Py.strip (u "  8.8.8.8 ")) = Ret true.
Proof.
  split; [reflexivity|].
  apply (stripped_text_is_valid 4300). reflexivity.
Defined.

Lemma info_text_lines_witness :
  exists pre post,
    info_text (sample_env (Raise timed_out) (Ret geo_failure) reliable)
              [ (u "IP", VStr (u "8.8.8.8")); (u "Индекс", VNone) ]
    = pre ++ (u "<b>Индекс:</b> <code>None</code>") ++ post.
Proof.
  apply (info_text_lines
           (sample_env (Raise timed_out) (Ret geo_failure) reliable)
           [ (u "IP", VStr (u "8.8.8.8")); (u "Индекс", VNone) ]
           (u "Индекс") VNone).
  right. left. reflexivity.
Defined.

(** * The resolver's handler and the failures it lets through *)

(** C5: in one and the same world the lookup's handler returns and the
    resolver's handler raises.  When both services answer with the JSON
    list [[]], and when both calls raise a [ValueError], [get_ip_info]
    catches the failure and [process_ip] returns after its error
    message; [cmd_my_ip] has the [RequestException] clause only, so the
    [AttributeError] of [get], or the [ValueError], leaves it after the
    one request, with no message sent. *)
Theorem resolver_failure_escapes :
  let E1 := sample_env (Ret (VList [])) (Ret (VList [])) reliable in
  let E2 := sample_env (Raise not_json) (Raise not_json) reliable in
  fst (dispatch E1 (msg "8.8.8.8") s0) = Ret tt
  /\ dispatch E1 (msg "Мой IP") s0
     = (Raise (no_attribute (VList []) (u "get")),
        logged s0 [HttpGet ipify_url 5])
  /\ fst (dispatch E2 (msg "8.8.8.8") s0) = Ret tt
  /\ dispatch E2 (msg "Мой IP") s0
     = (Raise not_json, logged s0 [HttpGet ipify_url 5]).
Proof. cbv zeta. repeat split. Qed.
